(** * mcp-agent-base: the streaming tool-use loop and its OpenAI wire adapter

    A shallow embedding of [src/base_agent/openai_adapter.py] and of
    [ClaudeMCPAgent.ask_stream] in [src/base_agent/agent.py], followed by the
    properties of the orchestration loop and of the SSE encoder.

    Conventions of the embedding.
    - A Python [str] is the list of its code points ([pystr]); [py "..."]
      turns a literal into that list and [nl] is the line feed.
    - Python values that travel through the adapter (dicts, lists, strings,
      numbers, [None]) are [pyval]s; a dict is the list of its items in
      insertion order, which is the order [json.dumps] prints them in.
    - The asynchronous generators are run to exhaustion by their consumer:
      a generator is modelled by the list of what it yields, in order.
    - The model provider and the tool executor are external: they are
      functions over an abstract world state that the loop threads through
      its calls, so that their answers may depend on everything that
      happened before.
    - [json.dumps] and [json.loads] raise what the interpreter makes them
      raise: [ValueError] on an [int] of too many digits and
      [RecursionError] on a value nested too deep. The two limits are
      parameters ([Json.limits]); a generator that raises is modelled by
      what it yielded and the exception. *)

From stdpp Require Import base option list gmap.
From Stdlib Require Import ZArith NArith Ascii DecimalString Lia.
From Stdlib Require String DecimalPos.
Import String.StringSyntax.
#[local] Delimit Scope string_scope with string.

Set Warnings "-register-all".
#[local] Open Scope Z_scope.
#[local] Open Scope list_scope.

(* ================================================================== *)
(** * Python strings and values *)
(* ================================================================== *)

Module Py.

(** A [str]: the sequence of its Unicode code points. *)
Definition pystr := list N.

(** A string literal of the source. *)
Definition py (s : String.string) : pystr :=
  List.map N_of_ascii (String.list_ascii_of_string s).
Arguments py s%_string.

(** The escape [\n] of the source's literals. *)
Definition nl : pystr := [10%N].

(** [s == t] on strings. *)
Definition str_eqb (s t : pystr) : bool := bool_decide (s = t).

(** [sep.join(parts)]. *)
Fixpoint join (sep : pystr) (parts : list pystr) : pystr :=
  match parts with
  | [] => []
  | [p] => p
  | p :: rest => p ++ sep ++ join sep rest
  end.

(** [str.isspace] on one code point: the characters [str.strip()] removes. *)
Definition is_space (c : N) : bool :=
  ((9 <=? c) && (c <=? 13))%N || ((28 <=? c) && (c <=? 32))%N
  || (c =? 133)%N || (c =? 160)%N || (c =? 5760)%N
  || ((8192 <=? c) && (c <=? 8202))%N
  || (c =? 8232)%N || (c =? 8233)%N || (c =? 8239)%N
  || (c =? 8287)%N || (c =? 12288)%N.

Fixpoint lstrip (s : pystr) : pystr :=
  match s with
  | c :: r => if is_space c then lstrip r else s
  | [] => []
  end.

Definition rstrip (s : pystr) : pystr := rev (lstrip (rev s)).

(** [s.strip()]. *)
Definition strip (s : pystr) : pystr := rstrip (lstrip s).

(** [str(n)] of an [int]. *)
Definition str_of_int (z : Z) : pystr :=
  py (NilZero.string_of_int (Z.to_int z)).

(** A [float] is kept by its printed form: [FFinite r] is the finite float
    whose [repr] is [r]. *)
Inductive pyfloat : Type :=
  | FNaN
  | FInf (negative : bool)
  | FFinite (repr : pystr).

(** The values the adapter and the loop pass around. *)
Inductive pyval : Type :=
  | PNone
  | PBool (b : bool)
  | PInt (z : Z)
  | PFloat (f : pyfloat)
  | PStr (s : pystr)
  | PList (l : list pyval)
  | PDict (d : list (pystr * pyval)).

(** A dict: its items, in insertion order, keys pairwise distinct. *)
Definition pydict := list (pystr * pyval).

Definition dict_wf (d : pydict) : Prop := NoDup (List.map fst d).

(** [d.get(k)] / [k in d]. *)
Fixpoint dict_get (k : pystr) (d : pydict) : option pyval :=
  match d with
  | [] => None
  | (k', v) :: r => if str_eqb k k' then Some v else dict_get k r
  end.

Definition dict_mem (k : pystr) (d : pydict) : bool :=
  match dict_get k d with Some _ => true | None => false end.

(** [d[k] = v]: an existing key keeps its place, a new one goes last. *)
Fixpoint dict_set (k : pystr) (v : pyval) (d : pydict) : pydict :=
  match d with
  | [] => [(k, v)]
  | (k', v') :: r =>
      if str_eqb k k' then (k', v) :: r else (k', v') :: dict_set k v r
  end.

(** [{**d, **e}]: the items of [e] are stored into [d] one after the other. *)
Definition dict_update (d e : pydict) : pydict :=
  fold_left (fun acc kv => dict_set (fst kv) (snd kv) acc) e d.

(** Truth value of an object, as [if x] and [x or y] test it. *)
Definition truthy (v : pyval) : bool :=
  match v with
  | PNone => false
  | PBool b => b
  | PInt z => negb (z =? 0)
  | PFloat (FFinite r) => negb (str_eqb r (py "0.0") || str_eqb r (py "-0.0"))
  | PFloat _ => true
  | PStr s => match s with [] => false | _ => true end
  | PList l => match l with [] => false | _ => true end
  | PDict d => match d with [] => false | _ => true end
  end.

(** [x or y]. *)
Definition py_or (x y : pyval) : pyval := if truthy x then x else y.

(** [s or t] on strings: the empty string is the only false one. *)
Definition str_or (s t : pystr) : pystr :=
  match s with [] => t | _ => s end.

End Py.
Import Py.

(* ================================================================== *)
(** * The [json] module: [dumps] and [loads] *)
(* ================================================================== *)

Module Json.

Definition hex_digit (n : N) : N :=
  (if n <? 10 then 48 + n else 87 + n)%N.

(** [format(n, "04x")] for [n < 0x10000]. *)
Definition hex4 (n : N) : pystr :=
  [ hex_digit (N.shiftr n 12 mod 16); hex_digit (N.shiftr n 8 mod 16);
    hex_digit (N.shiftr n 4 mod 16); hex_digit (n mod 16) ]%N.

Definition u_escape (n : N) : pystr := py "\u" ++ hex4 n.

(** One character under [ensure_ascii=True]. *)
Definition escape_char (c : N) : pystr :=
  if (c =? 34)%N then [92; 34]%N
  else if (c =? 92)%N then py "\\"
  else if (c =? 10)%N then py "\n"
  else if (c =? 13)%N then py "\r"
  else if (c =? 9)%N then py "\t"
  else if (c =? 8)%N then py "\b"
  else if (c =? 12)%N then py "\f"
  else if ((32 <=? c) && (c <=? 126))%N then [c]
  else if (c <? 65536)%N then u_escape c
  else
    let n := (c - 65536)%N in
    u_escape (N.lor 55296 (N.land (N.shiftr n 10) 1023))
    ++ u_escape (N.lor 56320 (N.land n 1023)).

(** [py_encode_basestring_ascii]. *)
Definition encode_string (s : pystr) : pystr :=
  [34%N] ++ List.concat (List.map escape_char s) ++ [34%N].

Definition float_repr (f : pyfloat) : pystr :=
  match f with
  | FNaN => py "NaN"
  | FInf false => py "Infinity"
  | FInf true => py "-Infinity"
  | FFinite r => r
  end.

(** ** What [json] raises, and when

    Besides [json.JSONDecodeError], which [json.loads] raises on a text that
    is not a JSON document, two limits of the interpreter make [json.loads]
    and [json.dumps] raise: an [int] with more digits than the interpreter
    converts to or from a string is refused with [ValueError], and a value
    nested deeper than the interpreter follows is refused with
    [RecursionError]. *)
Inductive error : Type :=
  | JSONDecodeError
  | RecursionError
  | ValueError.

(** The name of the exception class. *)
Definition error_name (e : error) : pystr :=
  match e with
  | JSONDecodeError => py "JSONDecodeError"
  | RecursionError => py "RecursionError"
  | ValueError => py "ValueError"
  end.

(** The limits of the interpreter at a call of [json]:
    [max_str_digits] is [sys.get_int_max_str_digits()], which is [0] (no
    limit) or at least 640 and 4300 unless it was set; the three depths are
    the numbers of lists and dicts that may be open inside one another
    before the decoder, the encoder and the encoder for [indent=2] run out
    of stack, which depend on the recursion limit and on the stack in use
    at the call. *)
Record limits : Type := {
  max_str_digits : N;
  decoder_depth : nat;
  encoder_depth : nat;
  indent_encoder_depth : nat;
}.

(** An [int] of [digits] digits is refused. *)
Definition too_many_digits (lim : limits) (digits : nat) : bool :=
  ((0 <? max_str_digits lim) && (max_str_digits lim <? N.of_nat digits))%N.

(** The number of digits of [str(z)], without the sign. *)
Definition int_digits (z : Z) : nat := length (str_of_int (Z.abs z)).

(** The JSON document of [v], with the default separators [", "] and
    [": "]: what [json.dumps(v)] returns when it returns. *)
Fixpoint document (v : pyval) : pystr :=
  match v with
  | PNone => py "null"
  | PBool true => py "true"
  | PBool false => py "false"
  | PInt z => str_of_int z
  | PFloat f => float_repr f
  | PStr s => encode_string s
  | PList l => py "[" ++ join (py ", ") (List.map document l) ++ py "]"
  | PDict d =>
      py "{"
      ++ join (py ", ")
           (List.map (fun kv => encode_string (fst kv) ++ py ": " ++ document (snd kv)) d)
      ++ py "}"
  end.

(** Line break and indentation at nesting depth [level] for [indent=2]. *)
Definition newline_indent (level : nat) : pystr :=
  nl ++ List.concat (repeat (py "  ") level).

(** The document of [v] with [indent=2], at nesting depth [level]. *)
Fixpoint document_indent_at (level : nat) (v : pyval) : pystr :=
  match v with
  | PList [] => py "[]"
  | PList l =>
      py "[" ++ newline_indent (S level)
      ++ join (py "," ++ newline_indent (S level))
           (List.map (document_indent_at (S level)) l)
      ++ newline_indent level ++ py "]"
  | PDict [] => py "{}"
  | PDict d =>
      py "{" ++ newline_indent (S level)
      ++ join (py "," ++ newline_indent (S level))
           (List.map (fun kv => encode_string (fst kv) ++ py ": "
                                ++ document_indent_at (S level) (snd kv)) d)
      ++ newline_indent level ++ py "}"
  | _ => document v
  end.

Definition document_indent2 (v : pyval) : pystr := document_indent_at 0 v.

(** The exception the encoder raises on [v], if any, when [depth] more
    lists or dicts may be opened: the encoder walks the value in the order
    of the document, opens a list or a dict only while [depth] lasts and
    converts every [int] it meets; the first refusal ends the walk. *)
Fixpoint refusal (lim : limits) (depth : nat) (v : pyval) {struct v} : option error :=
  match v with
  | PInt z => if too_many_digits lim (int_digits z) then Some ValueError else None
  | PList l =>
      match depth with
      | O => Some RecursionError
      | S depth' =>
          (fix first (l : list pyval) : option error :=
             match l with
             | [] => None
             | x :: rest =>
                 match refusal lim depth' x with
                 | Some e => Some e
                 | None => first rest
                 end
             end) l
      end
  | PDict d =>
      match depth with
      | O => Some RecursionError
      | S depth' =>
          (fix first (d : list (pystr * pyval)) : option error :=
             match d with
             | [] => None
             | kv :: rest =>
                 match refusal lim depth' (snd kv) with
                 | Some e => Some e
                 | None => first rest
                 end
             end) d
      end
  | _ => None
  end.

(** [json.dumps(v)]. *)
Definition dumps (lim : limits) (v : pyval) : pystr + error :=
  match refusal lim (encoder_depth lim) v with
  | Some e => inr e
  | None => inl (document v)
  end.

(** [json.dumps(v, indent=2)]. *)
Definition dumps_indent2 (lim : limits) (v : pyval) : pystr + error :=
  match refusal lim (indent_encoder_depth lim) v with
  | Some e => inr e
  | None => inl (document_indent2 v)
  end.

(** ** [json.loads]

    The decoder of the standard library, on [str] input: the JSON grammar
    with the extensions CPython accepts ([NaN], [Infinity], [-Infinity]) and
    in strict mode (no raw control character inside a string). The
    conversion of a number with a fraction or an exponent to a [float] is
    the hook [parse_float] of [json.loads]. A text that is not a JSON
    document gives [JSONDecodeError]; an integer of too many digits gives
    [ValueError] and a list or dict opened too deep [RecursionError], at
    the place where the decoder meets them. *)

Definition is_ws (c : N) : bool :=
  ((c =? 32) || (c =? 9) || (c =? 10) || (c =? 13))%N.

Fixpoint skip_ws (s : pystr) : pystr :=
  match s with
  | c :: r => if is_ws c then skip_ws r else s
  | [] => []
  end.

Definition is_digit (c : N) : bool := ((48 <=? c) && (c <=? 57))%N.

Fixpoint take_digits (s : pystr) : pystr * pystr :=
  match s with
  | c :: r =>
      if is_digit c then let '(ds, r') := take_digits r in (c :: ds, r')
      else ([], s)
  | [] => ([], [])
  end.

Definition digits_value (ds : pystr) : Z :=
  fold_left (fun acc c => 10 * acc + (Z.of_N c - 48)) ds 0.

Fixpoint starts_with (p s : pystr) : option pystr :=
  match p, s with
  | [], _ => Some s
  | a :: p', b :: s' => if (a =? b)%N then starts_with p' s' else None
  | _ :: _, [] => None
  end.

Definition hex_value (c : N) : option N :=
  if is_digit c then Some (c - 48)%N
  else if ((97 <=? c) && (c <=? 102))%N then Some (c - 87)%N
  else if ((65 <=? c) && (c <=? 70))%N then Some (c - 55)%N
  else None.

(** The code units of a string body, up to the closing quote: [(u, true)]
    is a unit written as [\uXXXX], [(c, false)] any other character. *)
Fixpoint scan_units (s : pystr) : option (list (N * bool) * pystr) :=
  match s with
  | [] => None
  | c :: r =>
      if (c =? 34)%N then Some ([], r)
      else if (c <? 32)%N then None
      else if (c =? 92)%N then
        match r with
        | e :: r1 =>
            if (e =? 117)%N then
              match r1 with
              | h1 :: h2 :: h3 :: h4 :: r2 =>
                  match hex_value h1, hex_value h2, hex_value h3, hex_value h4 with
                  | Some a, Some b, Some c', Some d =>
                      match scan_units r2 with
                      | Some (us, rest) =>
                          Some ((4096 * a + 256 * b + 16 * c' + d, true)%N :: us, rest)
                      | None => None
                      end
                  | _, _, _, _ => None
                  end
              | _ => None
              end
            else
              let simple (x : N) :=
                match scan_units r1 with
                | Some (us, rest) => Some ((x, false) :: us, rest)
                | None => None
                end in
              if (e =? 34)%N then simple 34%N
              else if (e =? 92)%N then simple 92%N
              else if (e =? 47)%N then simple 47%N
              else if (e =? 98)%N then simple 8%N
              else if (e =? 102)%N then simple 12%N
              else if (e =? 110)%N then simple 10%N
              else if (e =? 114)%N then simple 13%N
              else if (e =? 116)%N then simple 9%N
              else None
        | [] => None
        end
      else
        match scan_units r with
        | Some (us, rest) => Some ((c, false) :: us, rest)
        | None => None
        end
  end.

(** An escaped high surrogate directly followed by an escaped low one is
    one character. *)
Fixpoint join_surrogates (us : list (N * bool)) : pystr :=
  match us with
  | [] => []
  | (hi, true) :: (((lo, true) :: r) as tl) =>
      if ((55296 <=? hi) && (hi <=? 56319) && (56320 <=? lo) && (lo <=? 57343))%N
      then (65536 + N.lor (N.shiftl (hi - 55296) 10) (lo - 56320))%N
           :: join_surrogates r
      else hi :: join_surrogates tl
  | (c, _) :: tl => c :: join_surrogates tl
  end.

(** [scanstring], after the opening quote. *)
Definition scan_string (s : pystr) : option (pystr * pystr) :=
  match scan_units s with
  | Some (us, rest) => Some (join_surrogates us, rest)
  | None => None
  end.

(** The digits of a decimal numeral, as characters. *)
Fixpoint digits_of (d : Decimal.uint) : pystr :=
  match d with
  | Decimal.Nil => []
  | Decimal.D0 l => 48%N :: digits_of l
  | Decimal.D1 l => 49%N :: digits_of l
  | Decimal.D2 l => 50%N :: digits_of l
  | Decimal.D3 l => 51%N :: digits_of l
  | Decimal.D4 l => 52%N :: digits_of l
  | Decimal.D5 l => 53%N :: digits_of l
  | Decimal.D6 l => 54%N :: digits_of l
  | Decimal.D7 l => 55%N :: digits_of l
  | Decimal.D8 l => 56%N :: digits_of l
  | Decimal.D9 l => 57%N :: digits_of l
  end.

Section Loads.

Variable lim : limits.
Variable parse_float : pystr -> pyfloat.

(** A number, by [NUMBER_RE]: an optional minus sign, then [0] or a digit
    [1-9] and any digits, then (optionally) a dot and at least one digit,
    then (optionally) [e] or [E], an optional sign and at least one digit.
    Without fraction and exponent the digits are converted by [int], which
    refuses too many of them. [JSONDecodeError] stands for: no number
    here. *)
Definition scan_number (s : pystr) : (pyval * pystr) + error :=
  let '(neg, s1) :=
    match s with
    | c :: r => if (c =? 45)%N then (true, r) else (false, s)
    | [] => (false, s)
    end in
  let int_part :=
    match s1 with
    | c :: r =>
        if (c =? 48)%N then Some ([c], r)
        else if is_digit c then
          let '(ds, r') := take_digits r in Some (c :: ds, r')
        else None
    | [] => None
    end in
  match int_part with
  | None => inr JSONDecodeError
  | Some (ids, r1) =>
      let '(frac, r2) :=
        match r1 with
        | c :: r =>
            if (c =? 46)%N then
              match take_digits r with
              | ([], _) => ([], r1)
              | (fd, r') => (c :: fd, r')
              end
            else ([], r1)
        | [] => ([], r1)
        end in
      let '(expo, r3) :=
        match r2 with
        | c :: r =>
            if ((c =? 101) || (c =? 69))%N then
              let '(sign, r') :=
                match r with
                | g :: r'' =>
                    if ((g =? 43) || (g =? 45))%N then ([g], r'') else ([], r)
                | [] => ([], r)
                end in
              match take_digits r' with
              | ([], _) => ([], r2)
              | (ed, r'') => (c :: sign ++ ed, r'')
              end
            else ([], r2)
        | [] => ([], r2)
        end in
      match frac, expo with
      | [], [] =>
          if too_many_digits lim (length ids) then inr ValueError
          else
            let n := digits_value ids in
            inl (PInt (if neg then - n else n), r3)
      | _, _ =>
          inl (PFloat (parse_float ((if neg then [45%N] else []) ++ ids ++ frac ++ expo)), r3)
      end
  end.

(** The scalar cases of [scan_once]. *)
Definition scan_scalar (s : pystr) : (pyval * pystr) + error :=
  match starts_with (py "null") s with
  | Some r => inl (PNone, r)
  | None =>
  match starts_with (py "true") s with
  | Some r => inl (PBool true, r)
  | None =>
  match starts_with (py "false") s with
  | Some r => inl (PBool false, r)
  | None =>
  match scan_number s with
  | inl res => inl res
  | inr ValueError => inr ValueError
  | inr RecursionError => inr RecursionError
  | inr JSONDecodeError =>
  match starts_with (py "NaN") s with
  | Some r => inl (PFloat FNaN, r)
  | None =>
  match starts_with (py "Infinity") s with
  | Some r => inl (PFloat (FInf false), r)
  | None =>
  match starts_with (py "-Infinity") s with
  | Some r => inl (PFloat (FInf true), r)
  | None => inr JSONDecodeError
  end end end end end end end.

(** [scan_once], [JSONArray] and [JSONObject]. [depth] is the number of
    lists and dicts that may still be opened inside one another; [fuel]
    bounds the number of nested calls of this definition, which the length
    of the input bounds in turn. *)
Fixpoint scan_once (fuel depth : nat) (s : pystr) : (pyval * pystr) + error :=
  match fuel with
  | O => inr JSONDecodeError
  | S fuel' =>
      match s with
      | c :: r =>
          if (c =? 34)%N then
            match scan_string r with
            | Some (str, rest) => inl (PStr str, rest)
            | None => inr JSONDecodeError
            end
          else if (c =? 123)%N then
            match depth with
            | O => inr RecursionError
            | S depth' =>
                match skip_ws r with
                | c1 :: r1 =>
                    if (c1 =? 125)%N then inl (PDict [], r1)
                    else if (c1 =? 34)%N then scan_members fuel' depth' r1 []
                    else inr JSONDecodeError
                | [] => inr JSONDecodeError
                end
            end
          else if (c =? 91)%N then
            match depth with
            | O => inr RecursionError
            | S depth' =>
                match skip_ws r with
                | c1 :: r1 =>
                    if (c1 =? 93)%N then inl (PList [], r1)
                    else scan_elements fuel' depth' (c1 :: r1) []
                | [] => inr JSONDecodeError
                end
            end
          else scan_scalar s
      | [] => inr JSONDecodeError
      end
  end
with scan_elements (fuel depth : nat) (s : pystr) (acc : list pyval)
  : (pyval * pystr) + error :=
  match fuel with
  | O => inr JSONDecodeError
  | S fuel' =>
      match scan_once fuel' depth s with
      | inl (v, r) =>
          match skip_ws r with
          | c :: r1 =>
              if (c =? 93)%N then inl (PList (rev (v :: acc)), r1)
              else if (c =? 44)%N then scan_elements fuel' depth (skip_ws r1) (v :: acc)
              else inr JSONDecodeError
          | [] => inr JSONDecodeError
          end
      | inr e => inr e
      end
  end
with scan_members (fuel depth : nat) (s : pystr) (acc : pydict)
  : (pyval * pystr) + error :=
  (* [s] starts after the opening quote of a key *)
  match fuel with
  | O => inr JSONDecodeError
  | S fuel' =>
      match scan_string s with
      | Some (key, r) =>
          match skip_ws r with
          | c :: r1 =>
              if (c =? 58)%N then
                match scan_once fuel' depth (skip_ws r1) with
                | inl (v, r2) =>
                    let acc' := dict_set key v acc in
                    match skip_ws r2 with
                    | c2 :: r3 =>
                        if (c2 =? 125)%N then inl (PDict acc', r3)
                        else if (c2 =? 44)%N then
                          match skip_ws r3 with
                          | c3 :: r4 =>
                              if (c3 =? 34)%N then scan_members fuel' depth r4 acc'
                              else inr JSONDecodeError
                          | [] => inr JSONDecodeError
                          end
                        else inr JSONDecodeError
                    | [] => inr JSONDecodeError
                    end
                | inr e => inr e
                end
              else inr JSONDecodeError
          | [] => inr JSONDecodeError
          end
      | None => inr JSONDecodeError
      end
  end.

(** [json.loads(s)]: one value, surrounded by white space only. *)
Definition loads (s : pystr) : pyval + error :=
  match s with
  | 65279%N :: _ => inr JSONDecodeError
  | _ =>
      match scan_once (2 * length s + 2) (decoder_depth lim) (skip_ws s) with
      | inl (v, r) =>
          match skip_ws r with
          | [] => inl v
          | _ => inr JSONDecodeError
          end
      | inr e => inr e
      end
  end.

End Loads.

End Json.

(* ================================================================== *)
(** * [openai_adapter.py]: the streaming encoder *)
(* ================================================================== *)

Module OpenAIAdapter.

(** [_base_payload(model)]. [uuid_hex] and [now] are what
    [uuid.uuid4().hex] and [int(time.time())] return at the call. *)
Definition _base_payload (uuid_hex : pystr) (now : Z) (model : pystr) : pydict :=
  [ (py "id", PStr (py "chatcmpl-" ++ uuid_hex));
    (py "object", PStr (py "chat.completion"));
    (py "created", PInt now);
    (py "model", PStr model) ].

Definition _delta_content (chunk : pyval) : pyval := chunk.

(** The frame [f"data: {json.dumps(payload)}\n\n"], or what [json.dumps]
    raises on the payload. *)
Definition sse_frame (lim : Json.limits) (payload : pydict) : pystr + Json.error :=
  match Json.dumps lim (PDict payload) with
  | inl doc => inl (py "data: " ++ doc ++ nl ++ nl)
  | inr e => inr e
  end.

(** The literal ["data: [DONE]\n\n"]. *)
Definition done_frame : pystr := py "data: [DONE]" ++ nl ++ nl.

(** [{**base, "object": "chat.completion.chunk", "choices": [choice]}]. *)
Definition wrap_choice (base choice : pydict) : pydict :=
  dict_set (py "choices") (PList [PDict choice])
    (dict_set (py "object") (PStr (py "chat.completion.chunk")) base).

(** The payload one iteration of the [async for] loop of
    [async_sse_chat_completions] serialises for [chunk]. *)
Definition chunk_payload (base : pydict) (chunk : pyval) : pydict :=
  let choice :=
    [ (py "index", PInt 0); (py "delta", PDict []); (py "finish_reason", PNone) ] in
  match chunk with
  | PDict d =>
      if dict_mem (py "choices") d then dict_update base d
      else
        let delta := default (PDict []) (dict_get (py "delta") d) in
        let choice :=
          dict_set (py "delta")
            (match delta with PNone => PDict [] | _ => delta end) choice in
        let choice :=
          if dict_mem (py "finish_reason") d
          then dict_set (py "finish_reason")
                 (default PNone (dict_get (py "finish_reason") d)) choice
          else choice in
        wrap_choice base choice
  | _ =>
      wrap_choice base
        (dict_set (py "delta") (PDict [(py "content", _delta_content chunk)]) choice)
  end.

(** [json.dumps] writes the payload of [chunk]. *)
Definition chunk_encodes (lim : Json.limits) (base : pydict) (chunk : pyval) : bool :=
  match sse_frame lim (chunk_payload base chunk) with
  | inl _ => true
  | inr _ => false
  end.

(** The [async for] loop: the frames it yields, one per chunk, and the
    exception that ends it when [json.dumps] raises on the payload of a
    chunk; the chunks after that one are not read. *)
Fixpoint async_for_chunks (lim : Json.limits) (base : pydict) (chunks : list pyval)
  : list pystr * option Json.error :=
  match chunks with
  | [] => ([], None)
  | chunk :: rest =>
      match sse_frame lim (chunk_payload base chunk) with
      | inl frame =>
          let '(frames, raised) := async_for_chunks lim base rest in
          (frame :: frames, raised)
      | inr e => ([], Some e)
      end
  end.

(** [async_sse_chat_completions(chunk_async_iterable, model)], consumed to
    its end, when its source yields [chunks] and is then exhausted: the
    frames it yields and, when it raises, the exception that ends it. *)
Definition async_sse_chat_completions
    (lim : Json.limits) (uuid_hex : pystr) (now : Z) (chunks : list pyval)
    (model : pystr) : list pystr * option Json.error :=
  let base := _base_payload uuid_hex now model in
  match async_for_chunks lim base chunks with
  | (frames, None) => (frames ++ [done_frame], None)
  | (frames, Some e) => (frames, Some e)
  end.

End OpenAIAdapter.

(* ================================================================== *)
(** * [agent.py]: data of the tool-use loop *)
(* ================================================================== *)

Module Agent.

(** [event.type]; every type the loop does not test is [OtherEvent]. *)
Inductive event_type : Type :=
  | ContentBlockStart
  | ContentBlockDelta
  | ContentBlockStop
  | OtherEvent.

(** The [type] of a content block: ["text"], ["thinking"], ["tool_use"] or
    any other string. *)
Inductive block_type : Type :=
  | BText
  | BThinking
  | BToolUse
  | BOther.

(** The [type] of a block delta; only ["thinking_delta"] is tested. *)
Inductive delta_type : Type :=
  | TextDelta
  | ThinkingDelta
  | OtherDelta.

#[global] Instance block_type_eq_dec : EqDecision block_type.
Proof. solve_decision. Defined.

(** A content block, read by attribute probing:
    [cb_type] is [getattr(block, "type", None)] and [cb_text] is
    [getattr(block, "text", None)]; [cb_id], [cb_name] and [cb_input] are
    read on tool-use blocks only. *)
Record content_block : Type := {
  cb_type : option block_type;
  cb_text : option pystr;
  cb_id : pystr;
  cb_name : pystr;
  cb_input : pyval;
}.

(** [event.delta]: [dl_text] is [getattr(delta, "text", None)];
    [dl_thinking] is [Some] exactly when [hasattr(delta, "thinking")]. *)
Record block_delta : Type := {
  dl_type : option delta_type;
  dl_text : option pystr;
  dl_thinking : option pystr;
}.

(** One event of the provider's stream; [None] is Python's [None]. *)
Record event : Type := {
  ev_type : event_type;
  ev_index : option Z;
  ev_content_block : option content_block;
  ev_delta : option block_delta;
}.

(** [ToolResultBlockParam]. *)
Record tool_result : Type := {
  result_type : pystr;
  tool_use_id : pystr;
  result_content : pystr;
}.

(** The [content] of a message of the conversation: what the caller gave,
    the blocks of an assistant turn, or a batch of tool results. *)
Inductive message_content : Type :=
  | Given (v : pyval)
  | Blocks (bs : list content_block)
  | ToolResults (rs : list tool_result).

Record message : Type := {
  role : pystr;
  content : message_content;
}.

(** [MCPToolDefinition] and its [to_anthropic]. *)
Record tool_definition : Type := {
  td_name : pystr;
  td_description : pystr;
  td_input_schema : pyval;
}.

Definition to_anthropic (t : tool_definition) : pyval :=
  PDict [ (py "name", PStr (td_name t));
          (py "description", PStr (td_description t));
          (py "input_schema", td_input_schema t) ].

(** [request_kwargs]; an absent key is [None]. *)
Record request : Type := {
  req_model : pystr;
  req_max_tokens : Z;
  req_tools : list pyval;
  req_temperature : pyfloat;
  req_messages : list message;
  req_system : option pyval;
  req_thinking : option pyval;
}.

(** What one streaming session delivers: its events, then the final
    message, or [None] when the session fails after these events. *)
Record provider_round : Type := {
  events : list event;
  final_message : option (list content_block);
}.

(** The result of a call that may raise. *)
Inductive outcome (A : Type) : Type :=
  | Returned (a : A)
  | Raised (exn : pystr).
Arguments Returned {A} a.
Arguments Raised {A} exn.

(** The external collaborators over a world state [W]:
    [self.mcp_client.list_tools], [self.client.messages.stream] (the
    session as a whole), [self.mcp_client.call_tool], the [float]
    constructor [json.loads] uses, and the limits of the interpreter that
    runs the loop, which decide when [json] raises. *)
Record collaborators (W : Type) : Type := {
  list_tools : W -> outcome (list tool_definition) * W;
  messages_stream : W -> request -> provider_round * W;
  call_tool : W -> pystr -> pyval -> outcome pystr * W;
  parse_float : pystr -> pyfloat;
  interpreter : Json.limits;
}.
Arguments list_tools {W} c.
Arguments messages_stream {W} c.
Arguments call_tool {W} c.
Arguments parse_float {W} c.
Arguments interpreter {W} c.

(** A call that left the process, for the record. *)
Inductive external_call : Type :=
  | ListTools
  | MessagesStream (req : request)
  | CallTool (tool_name : pystr) (arguments : pyval).

(** The fields of [ClaudeMCPAgent] the loop reads. *)
Record agent : Type := {
  model : pystr;
  max_output_tokens : Z;
  system_prompt : pystr;
  temperature : pyfloat;
  thinking_enabled : bool;
  thinking_budget_tokens : option Z;
  simulate : bool;
}.

(** ** Chunks yielded by [ask_stream] *)

(** [{"delta": d}]. *)
Definition delta_chunk (d : pydict) : pyval := PDict [(py "delta", PDict d)].

(** [{"delta": {"content": s}}]. *)
Definition content_chunk (s : pystr) : pyval :=
  delta_chunk [(py "content", PStr s)].

(** [{"delta": {"thinking": s, "content": s}}]. *)
Definition thinking_chunk (s : pystr) : pyval :=
  delta_chunk [(py "thinking", PStr s); (py "content", PStr s)].

(** [{"delta": {}, "finish_reason": "stop"}]. *)
Definition finish_chunk : pyval :=
  PDict [(py "delta", PDict []); (py "finish_reason", PStr (py "stop"))].

(** [{"delta": {"tool_calls": [tool_call]}}] for a finalized tool-use
    block; [arguments] is what [json.dumps(event.content_block.input or {})]
    returned. *)
Definition tool_call_chunk (b : content_block) (arguments : pystr) : pyval :=
  let tool_call :=
    PDict [ (py "id", PStr (cb_id b));
            (py "type", PStr (py "function"));
            (py "function",
              PDict [ (py "name", PStr (cb_name b));
                      (py "arguments", PStr arguments) ]) ] in
  delta_chunk [(py "tool_calls", PList [tool_call])].

(** The value under ["delta"]["content"] of a chunk, when it is a dict that
    has one. *)
Definition chunk_content (chunk : pyval) : option pyval :=
  match chunk with
  | PDict d =>
      match dict_get (py "delta") d with
      | Some (PDict dd) => dict_get (py "content") dd
      | _ => None
      end
  | _ => None
  end.

(** The value under ["delta"]["thinking"] of a chunk. *)
Definition chunk_thinking (chunk : pyval) : option pyval :=
  match chunk with
  | PDict d =>
      match dict_get (py "delta") d with
      | Some (PDict dd) => dict_get (py "thinking") dd
      | _ => None
      end
  | _ => None
  end.

(** The text of the content-bearing deltas of a run, concatenated in order. *)
Fixpoint live_content (chunks : list pyval) : pystr :=
  match chunks with
  | [] => []
  | c :: rest =>
      match chunk_content c with
      | Some (PStr s) => s ++ live_content rest
      | _ => live_content rest
      end
  end.

(** ** Messages appended to the conversation *)

(** [{"role": "assistant", "content": final_message.content}]. *)
Definition assistant_message (blocks : list content_block) : message :=
  {| role := py "assistant"; content := Blocks blocks |}.

(** [{"role": "user", "content": tool_results}]. *)
Definition tool_results_message (rs : list tool_result) : message :=
  {| role := py "user"; content := ToolResults rs |}.

(** [tool_use.input or {}]. *)
Definition tool_arguments (tool_use : content_block) : pyval :=
  py_or (cb_input tool_use) (PDict []).

Definition no_content : pystr := py "No content returned by tool.".

(** The [ToolResultBlockParam] built from a tool's output. *)
Definition to_tool_result (tool_use : content_block) (tool_output : pystr) : tool_result :=
  {| result_type := py "tool_result";
     tool_use_id := cb_id tool_use;
     result_content := str_or tool_output no_content |}.

(* ================================================================== *)
(** * [ClaudeMCPAgent.ask_stream] *)
(* ================================================================== *)

Section AskStream.

Context {W : Type}.
Variable collab : collaborators W.

(** The variables of one invocation of [ask_stream], with what it has
    yielded so far, the state of the outside world and the calls made. *)
Record vars : Type := {
  conversation : list message;
  answer_parts : list pystr;
  thinking_parts : list pystr;
  block_types : gmap (option Z) (option block_type);
  tool_requests : list content_block;
  tool_results : list tool_result;
  yielded : list pyval;
  world : W;
  calls : list external_call;
}.

Definition initial (w : W) : vars :=
  {| conversation := []; answer_parts := []; thinking_parts := [];
     block_types := ∅; tool_requests := []; tool_results := [];
     yielded := []; world := w; calls := [] |}.

(** A statement of the generator: it updates the variables and returns, or
    raises and leaves them as they are at that point. *)
Definition M (A : Type) : Type := vars -> outcome A * vars.

Definition ret {A} (a : A) : M A := fun s => (Returned a, s).

Definition bind {A B} (m : M A) (k : A -> M B) : M B :=
  fun s =>
    match m s with
    | (Returned a, s') => k a s'
    | (Raised e, s') => (Raised e, s')
    end.

Definition raise {A} (e : pystr) : M A := fun s => (Raised e, s).

Definition get {A} (f : vars -> A) : M A := fun s => (Returned (f s), s).

Definition modify (f : vars -> vars) : M unit := fun s => (Returned tt, f s).

Notation "x <- m ;; k" := (bind m (fun x => k))
  (at level 100, m at next level, right associativity).
Notation "m ;; k" := (bind m (fun _ => k))
  (at level 100, right associativity).

Definition when (b : bool) (m : M unit) : M unit := if b then m else ret tt.

(** [for x in l: body(x)]. *)
Fixpoint for_each {A} (l : list A) (body : A -> M unit) : M unit :=
  match l with
  | [] => ret tt
  | x :: rest => body x ;; for_each rest body
  end.

(** [yield chunk]. *)
Definition yield (chunk : pyval) : M unit :=
  modify (fun s =>
    {| conversation := conversation s; answer_parts := answer_parts s;
       thinking_parts := thinking_parts s; block_types := block_types s;
       tool_requests := tool_requests s; tool_results := tool_results s;
       yielded := yielded s ++ [chunk]; world := world s; calls := calls s |}).

(** [conversation.append(m)]. *)
Definition conversation_append (m : message) : M unit :=
  modify (fun s =>
    {| conversation := conversation s ++ [m]; answer_parts := answer_parts s;
       thinking_parts := thinking_parts s; block_types := block_types s;
       tool_requests := tool_requests s; tool_results := tool_results s;
       yielded := yielded s; world := world s; calls := calls s |}).

(** [answer_parts.append(t)]. *)
Definition answer_parts_append (t : pystr) : M unit :=
  modify (fun s =>
    {| conversation := conversation s; answer_parts := answer_parts s ++ [t];
       thinking_parts := thinking_parts s; block_types := block_types s;
       tool_requests := tool_requests s; tool_results := tool_results s;
       yielded := yielded s; world := world s; calls := calls s |}).

(** [thinking_parts.extend(ts)]. *)
Definition thinking_parts_extend (ts : list pystr) : M unit :=
  modify (fun s =>
    {| conversation := conversation s; answer_parts := answer_parts s;
       thinking_parts := thinking_parts s ++ ts; block_types := block_types s;
       tool_requests := tool_requests s; tool_results := tool_results s;
       yielded := yielded s; world := world s; calls := calls s |}).

(** [block_types[i] = t]. *)
Definition block_types_set (i : option Z) (t : option block_type) : M unit :=
  modify (fun s =>
    {| conversation := conversation s; answer_parts := answer_parts s;
       thinking_parts := thinking_parts s;
       block_types := <[i := t]> (block_types s);
       tool_requests := tool_requests s; tool_results := tool_results s;
       yielded := yielded s; world := world s; calls := calls s |}).

(** [tool_requests.append(b)]. *)
Definition tool_requests_append (b : content_block) : M unit :=
  modify (fun s =>
    {| conversation := conversation s; answer_parts := answer_parts s;
       thinking_parts := thinking_parts s; block_types := block_types s;
       tool_requests := tool_requests s ++ [b]; tool_results := tool_results s;
       yielded := yielded s; world := world s; calls := calls s |}).

(** [tool_results.append(r)]. *)
Definition tool_results_append (r : tool_result) : M unit :=
  modify (fun s =>
    {| conversation := conversation s; answer_parts := answer_parts s;
       thinking_parts := thinking_parts s; block_types := block_types s;
       tool_requests := tool_requests s; tool_results := tool_results s ++ [r];
       yielded := yielded s; world := world s; calls := calls s |}).

(** [conversation = list(messages); answer_parts = []; thinking_parts = []]. *)
Definition start_conversation (messages : list message) : M unit :=
  modify (fun s =>
    {| conversation := messages; answer_parts := []; thinking_parts := [];
       block_types := block_types s;
       tool_requests := tool_requests s; tool_results := tool_results s;
       yielded := yielded s; world := world s; calls := calls s |}).

(** [block_types = {}] and [tool_requests = []] at the top of a round. *)
Definition start_round : M unit :=
  modify (fun s =>
    {| conversation := conversation s; answer_parts := answer_parts s;
       thinking_parts := thinking_parts s; block_types := ∅;
       tool_requests := []; tool_results := tool_results s;
       yielded := yielded s; world := world s; calls := calls s |}).

(** [tool_results = []]. *)
Definition start_tool_results : M unit :=
  modify (fun s =>
    {| conversation := conversation s; answer_parts := answer_parts s;
       thinking_parts := thinking_parts s; block_types := block_types s;
       tool_requests := tool_requests s; tool_results := [];
       yielded := yielded s; world := world s; calls := calls s |}).

(** A call to a collaborator: the world moves on and the call is recorded. *)
Definition external {A} (c : external_call) (f : W -> A * W) : M A :=
  fun s =>
    let '(a, w') := f (world s) in
    (Returned a,
     {| conversation := conversation s; answer_parts := answer_parts s;
        thinking_parts := thinking_parts s; block_types := block_types s;
        tool_requests := tool_requests s; tool_results := tool_results s;
        yielded := yielded s; world := w'; calls := calls s ++ [c] |}).

(** [await f(...)] for an [f] that may raise. *)
Definition await {A} (c : external_call) (f : W -> outcome A * W) : M A :=
  r <- external c f ;;
  match r with
  | Returned a => ret a
  | Raised e => raise e
  end.

(** A call of [json] that nothing guards: what it raises leaves the
    generator. *)
Definition json {A} (r : A + Json.error) : M A :=
  match r with
  | inl a => ret a
  | inr e => raise (Json.error_name e)
  end.

(** [json.dumps(v)] and [json.dumps(v, indent=2)] in the loop. *)
Definition json_dumps (v : pyval) : M pystr :=
  json (Json.dumps (interpreter collab) v).

Definition json_dumps_indent2 (v : pyval) : M pystr :=
  json (Json.dumps_indent2 (interpreter collab) v).

(** ** The body of the generator *)

Variable self : agent.
Variable stream_mode : bool.
Variable include_tool_logs : bool.

(** [block_types.get(i) == "thinking"]. *)
Definition declared_thinking (s : vars) (i : option Z) : bool :=
  bool_decide (block_types s !! i = Some (Some BThinking)).

(** [getattr(event.content_block, "type", None)]. *)
Definition content_block_type (e : event) : option block_type :=
  match ev_content_block e with
  | Some b => cb_type b
  | None => None
  end.

(** [hasattr(event.delta, "thinking")]. *)
Definition has_thinking (e : event) : bool :=
  match ev_delta e with
  | Some d => bool_decide (is_Some (dl_thinking d))
  | None => false
  end.

(** The text of a delta event:
    [getattr(event.delta, "text", None) or ""], and when that is empty and
    the delta has a [thinking] attribute, [getattr(event.delta, "thinking")
    or ""]. *)
Definition delta_text_of (e : event) : pystr :=
  let text :=
    match ev_delta e with
    | Some d => default [] (dl_text d)
    | None => []
    end in
  match text with
  | [] =>
      match ev_delta e with
      | Some d => default [] (dl_thinking d)
      | None => []
      end
  | _ => text
  end.

(** [getattr(event.delta, "type", None) == "thinking_delta"]. *)
Definition tagged_thinking (e : event) : bool :=
  match ev_delta e with
  | Some d => match dl_type d with Some ThinkingDelta => true | _ => false end
  | None => false
  end.

Definition is_event (t : event_type) (e : event) : bool :=
  match t, ev_type e with
  | ContentBlockStart, ContentBlockStart
  | ContentBlockDelta, ContentBlockDelta
  | ContentBlockStop, ContentBlockStop => true
  | _, _ => false
  end.

Definition nonempty (s : pystr) : bool :=
  match s with [] => false | _ => true end.

(** The body of [async for event in stream]. *)
Definition on_event (e : event) : M unit :=
  when (is_event ContentBlockStart e) (
    block_types_set (ev_index e) (content_block_type e) ;;
    s <- get id ;;
    when (declared_thinking s (ev_index e) && stream_mode)
      (yield (content_chunk (py "**Thoughts:**" ++ nl)))) ;;
  when (is_event ContentBlockDelta e) (
    let delta_text := delta_text_of e in
    when (nonempty delta_text) (
      s <- get id ;;
      let is_thinking :=
        declared_thinking s (ev_index e) || has_thinking e || tagged_thinking e in
      if is_thinking then
        thinking_parts_extend [delta_text] ;;
        when stream_mode (yield (thinking_chunk delta_text))
      else
        when stream_mode (yield (content_chunk delta_text)))) ;;
  when (is_event ContentBlockStop e && stream_mode) (
    s <- get id ;;
    when (declared_thinking s (ev_index e))
      (yield (content_chunk (nl ++ nl ++ py "---" ++ nl ++ nl))) ;;
    yield (content_chunk nl)) ;;
  when (is_event ContentBlockStop e
        && bool_decide (content_block_type e = Some BToolUse))
    match ev_content_block e with
    | Some b =>
        tool_requests_append b ;;
        when stream_mode (
          arguments <- json_dumps (tool_arguments b) ;;
          yield (tool_call_chunk b arguments))
    | None => ret tt
    end.

(** [request_kwargs] of a round. *)
Definition request_kwargs (tools : list pyval) (conv : list message) : request :=
  {| req_model := model self;
     req_max_tokens := max_output_tokens self;
     req_tools := tools;
     req_temperature := temperature self;
     req_messages := conv;
     req_system :=
       if nonempty (system_prompt self)
       then Some (PList [PDict [ (py "type", PStr (py "text"));
                                 (py "text", PStr (system_prompt self)) ]])
       else None;
     req_thinking :=
       match thinking_budget_tokens self with
       | Some budget =>
           if thinking_enabled self && negb (budget =? 0)
           then Some (PDict [ (py "type", PStr (py "enabled"));
                              (py "budget_tokens", PInt budget) ])
           else None
       | None => None
       end |}.

(** [getattr(block, "text", None)], when it is a non-empty string. *)
Definition block_text (b : content_block) : option pystr :=
  match cb_text b with
  | Some t => if nonempty t then Some t else None
  | None => None
  end.

(** The list [text_blocks] of a final message. *)
Definition text_blocks (blocks : list content_block) : list pystr :=
  omap (fun b =>
          if bool_decide (cb_type b = Some BThinking) then None else block_text b)
       blocks.

(** The list [thinking_blocks] of a final message. *)
Definition thinking_blocks (blocks : list content_block) : list pystr :=
  omap (fun b =>
          if bool_decide (cb_type b = Some BThinking) then block_text b else None)
       blocks.

(** The text the loop yields and keeps before a tool call; [arguments] is
    what [json.dumps] returned for [tool_use.input or {}]. *)
Definition calling_log (tool_use : content_block) (arguments : pystr) : pystr :=
  nl ++ nl ++ py "Calling `" ++ cb_name tool_use ++ py "` with args:" ++ nl
  ++ py "```json" ++ nl ++ arguments ++ nl
  ++ py "```".

(** The text reporting a tool's output. *)
Definition result_log (tool_use : content_block) (output : pystr) : pystr :=
  nl ++ nl ++ py "Result from `" ++ cb_name tool_use ++ py "`:" ++ nl
  ++ py "```json" ++ nl ++ output ++ nl ++ py "```" ++ nl.

(** [parsed_tool_output]: the decoded output, or the output itself when
    [json.loads] raises [JSONDecodeError]. The output is a [str], so that
    [TypeError], the other exception the [except] clause names, does not
    arise; what else [json.loads] raises is not caught. *)
Definition parsed_tool_output (tool_output : pystr) : pyval + Json.error :=
  match Json.loads (interpreter collab) (parse_float collab) tool_output with
  | inl v => inl v
  | inr Json.JSONDecodeError => inl (PStr tool_output)
  | inr e => inr e
  end.

(** [rendered_output]. *)
Definition rendered_output (parsed : pyval) : pystr + Json.error :=
  match parsed with
  | PStr s => inl s
  | v => Json.dumps (interpreter collab) v
  end.

(** The body of [for tool_use in tool_requests]. Its first statement is
    the call of [logger.info], whose argument [json.dumps(tool_use.input or
    {})] is evaluated whatever the log level is. *)
Definition on_tool_use (tool_use : content_block) : M unit :=
  json_dumps (tool_arguments tool_use) ;;
  when (stream_mode && include_tool_logs) (
    arguments <- json_dumps (tool_arguments tool_use) ;;
    yield (PStr (calling_log tool_use arguments))) ;;
  when include_tool_logs (
    arguments <- json_dumps_indent2 (tool_arguments tool_use) ;;
    answer_parts_append (calling_log tool_use arguments)) ;;
  tool_output <-
    await (CallTool (cb_name tool_use) (tool_arguments tool_use))
      (fun w => call_tool collab w (cb_name tool_use) (tool_arguments tool_use)) ;;
  parsed <- json (parsed_tool_output tool_output) ;;
  when (stream_mode && nonempty tool_output && include_tool_logs) (
    rendered <- json (rendered_output parsed) ;;
    yield (delta_chunk
             [ (py "role", PStr (py "tool"));
               (py "tool_call_id", PStr (cb_id tool_use));
               (py "content", PStr (result_log tool_use rendered)) ])) ;;
  when include_tool_logs
    (answer_parts_append (result_log tool_use tool_output)) ;;
  tool_results_append (to_tool_result tool_use tool_output).

(** One pass through the body of [while True]: [true] when it ends in
    [break], [false] when it reaches the end of the body. *)
Definition round (tools : list pyval) : M bool :=
  start_round ;;
  conv <- get conversation ;;
  let req := request_kwargs tools conv in
  session <- external (MessagesStream req) (fun w => messages_stream collab w req) ;;
  for_each (events session) on_event ;;
  content <-
    match final_message session with
    | Some blocks => ret blocks
    | None => raise (py "provider stream error")
    end ;;
  conversation_append (assistant_message content) ;;
  for_each (text_blocks content) answer_parts_append ;;
  thinking_parts_extend (thinking_blocks content) ;;
  requests <- get tool_requests ;;
  match requests with
  | [] => ret true
  | _ =>
      start_tool_results ;;
      for_each requests on_tool_use ;;
      results <- get tool_results ;;
      conversation_append (tool_results_message results) ;;
      ret false
  end.

(** [while True], cut after [fuel] passes: [true] when the loop was left by
    [break], [false] when [fuel] passes did not reach it. *)
Fixpoint while_true (fuel : nat) (tools : list pyval) : M bool :=
  match fuel with
  | O => ret false
  | S fuel' =>
      done <- round tools ;;
      if (done : bool) then ret true else while_true fuel' tools
  end.

(** The section [**Thoughts:** ... **Answer:**] of the collected answer. *)
Definition thoughts_section (thinking : list pystr) : pystr :=
  py "**Thoughts:**" ++ nl ++ nl ++ List.concat thinking ++ nl ++ nl
  ++ py "---" ++ nl ++ nl ++ py "**Answer:**" ++ nl ++ nl.

Definition final_sections (thinking answer : list pystr) : list pystr :=
  (match thinking with [] => [] | _ => [thoughts_section thinking] end)
  ++ List.filter nonempty answer.

(** [final_answer]. *)
Definition final_answer (thinking answer : list pystr) : pystr :=
  strip (join (nl ++ nl) (final_sections thinking answer)).

Definition simulated : pystr := py "Simulated response.".

(** [ask_stream(messages, stream_mode=..., include_tool_logs=...)], run to
    exhaustion with at most [fuel] rounds: [Returned true] when the
    generator returned, [Returned false] when it is still in its loop after
    [fuel] rounds, [Raised] when it raised. *)
Definition ask_stream (messages : list message) (fuel : nat) : M bool :=
  if simulate self then
    (if stream_mode then
       yield (content_chunk simulated) ;;
       yield finish_chunk
     else
       yield (PStr simulated)) ;;
    ret true
  else
    listed <- await ListTools (list_tools collab) ;;
    let tools := List.map to_anthropic listed in
    start_conversation messages ;;
    left <- while_true fuel tools ;;
    if (left : bool) then
      thinking <- get thinking_parts ;;
      answer <- get answer_parts ;;
      (if stream_mode then yield finish_chunk
       else yield (PStr (final_answer thinking answer))) ;;
      ret true
    else ret false.

End AskStream.

Arguments vars W : clear implicits.

Notation "x <- m ;; k" := (bind m (fun x => k))
  (at level 100, m at next level, right associativity).
Notation "m ;; k" := (bind m (fun _ => k))
  (at level 100, right associativity).

(** ** A round seen from outside *)

(** The tool-use block an event finalizes, if any. *)
Definition finalized_of (e : event) : list content_block :=
  match ev_type e, ev_content_block e with
  | ContentBlockStop, Some b =>
      if bool_decide (cb_type b = Some BToolUse) then [b] else []
  | _, _ => []
  end.

(** The tool requests of a round: the tool-use blocks its stream finalizes,
    in the order of the stream. *)
Definition finalized_tool_uses (evs : list event) : list content_block :=
  flat_map finalized_of evs.

(** What the executor answers to these requests when it is called for each
    in turn, from world [w] on; the first call that raises ends the run. *)
Fixpoint call_tools {W} (collab : collaborators W) (w : W)
    (requests : list content_block) : outcome (list pystr) * W :=
  match requests with
  | [] => (Returned [], w)
  | tool_use :: rest =>
      match call_tool collab w (cb_name tool_use) (tool_arguments tool_use) with
      | (Returned out, w1) =>
          match call_tools collab w1 rest with
          | (Returned outs, w2) => (Returned (out :: outs), w2)
          | (Raised e, w2) => (Raised e, w2)
          end
      | (Raised e, w1) => (Raised e, w1)
      end
  end.

(** The text the deltas of a stream carry, in order. *)
Definition streamed_text (evs : list event) : pystr :=
  List.concat
    (List.map (fun e => if is_event ContentBlockDelta e then delta_text_of e else [])
       evs).

(** An event of the body of an answer: the start of a block that is not a
    thinking block, a delta that nothing marks as thinking, or an event the
    loop ignores. *)
Definition answer_event (e : event) : bool :=
  match ev_type e with
  | ContentBlockStart => negb (bool_decide (content_block_type e = Some BThinking))
  | ContentBlockDelta => negb (has_thinking e) && negb (tagged_thinking e)
  | ContentBlockStop => false
  | OtherEvent => true
  end.

(** An event that closes a stream without text and without a tool request. *)
Definition closing_event (e : event) : bool :=
  match ev_type e with
  | ContentBlockStart => negb (bool_decide (content_block_type e = Some BThinking))
  | ContentBlockDelta => negb (nonempty (delta_text_of e))
  | ContentBlockStop => negb (bool_decide (content_block_type e = Some BToolUse))
  | OtherEvent => true
  end.

(** ** Predicates on runs *)

(** What the stream of a round leaves alone. *)
Definition same_outside_stream {W} (s s' : vars W) : Prop :=
  conversation s' = conversation s /\ answer_parts s' = answer_parts s
  /\ tool_results s' = tool_results s /\ world s' = world s
  /\ calls s' = calls s.

(** No block of the round has been declared as thinking. *)
Definition undeclared {W} (s : vars W) : Prop :=
  forall i, declared_thinking s i = false.

(** What a stream without thinking and without tool requests leaves alone. *)
Definition same_but_output {W} (s s' : vars W) : Prop :=
  same_outside_stream s s' /\ thinking_parts s' = thinking_parts s
  /\ tool_requests s' = tool_requests s /\ undeclared s'.

(** A statement that yields nothing. *)
Definition silent {W A} (m : M (W := W) A) : Prop :=
  forall s : vars W, yielded (snd (m s)) = yielded s.

(** [json.dumps] writes the arguments of a tool request, with and without
    [indent=2]. *)
Definition arguments_encode {W} (collab : collaborators W)
    (tool_use : content_block) : bool :=
  match Json.dumps (interpreter collab) (tool_arguments tool_use),
        Json.dumps_indent2 (interpreter collab) (tool_arguments tool_use) with
  | inl _, inl _ => true
  | _, _ => false
  end.

(** The output of a tool is taken in without an exception: [json.loads]
    decodes it to a value that [json.dumps] can write back, or raises
    [JSONDecodeError]. *)
Definition output_decodes {W} (collab : collaborators W) (out : pystr) : bool :=
  match parsed_tool_output collab out with
  | inl parsed =>
      match rendered_output collab parsed with
      | inl _ => true
      | inr _ => false
      end
  | inr _ => false
  end.

(** The text the result annotation shows for such an output. *)
Definition shown_output {W} (collab : collaborators W) (out : pystr) : pystr :=
  match parsed_tool_output collab out with
  | inl (PStr text) => text
  | inl parsed => Json.document parsed
  | inr _ => out
  end.

(** The chunks one tool call surfaces: the log line, then the result
    annotation, both in live mode with tool logs only, the latter for a
    non-empty output only. *)
Definition tool_chunks {W} (collab : collaborators W)
    (stream_mode include_tool_logs : bool)
    (tool_use : content_block) (out : pystr) : list pyval :=
  (if stream_mode && include_tool_logs
   then [PStr (calling_log tool_use (Json.document (tool_arguments tool_use)))]
   else [])
  ++ (if stream_mode && nonempty out && include_tool_logs
      then [delta_chunk
              [ (py "role", PStr (py "tool"));
                (py "tool_call_id", PStr (cb_id tool_use));
                (py "content", PStr (result_log tool_use (shown_output collab out))) ]]
      else []).

End Agent.

(* ================================================================== *)
(** * Scripted collaborators *)
(* ================================================================== *)

(** Concrete providers and executors, in the manner of the fakes of
    [tests/test_agent.py], on which the loop can be run. *)
Module Scenario.
Import Agent.

Definition echo_definition : tool_definition :=
  {| td_name := py "echo"; td_description := py "test tool";
     td_input_schema := PDict [(py "type", PStr (py "object"))] |}.

(** The limits of an interpreter that was left as it comes: [int]s of at
    most 4300 digits, and a recursion limit of 1000, of which the frames
    under the call of [json] leave 900 here. *)
Definition cpython : Json.limits :=
  {| Json.max_str_digits := 4300; Json.decoder_depth := 900;
     Json.encoder_depth := 900; Json.indent_encoder_depth := 900 |}.

(** A provider that plays prepared sessions in order (the world is the
    list of sessions left) and an executor computed by [tool]. No tool
    output below holds a number with a fraction: [parse_float] keeps the
    lexeme. *)
Definition scripted (tool : pystr -> pyval -> outcome pystr)
  : collaborators (list provider_round) :=
  {| list_tools := fun w => (Returned [echo_definition], w);
     messages_stream := fun w _ =>
       match w with
       | r :: rest => (r, rest)
       | [] => ({| events := []; final_message := None |}, [])
       end;
     call_tool := fun w name args => (tool name args, w);
     parse_float := FFinite;
     interpreter := cpython |}.

(** [DummyMCPClient.call_tool]: [json.dumps({"result": arguments})]. *)
Definition echo_tool (name : pystr) (args : pyval) : outcome pystr :=
  match Json.dumps cpython (PDict [(py "result", args)]) with
  | inl doc => Returned doc
  | inr e => Raised (Json.error_name e)
  end.

(** A tool whose result has no content: [call_tool] joins nothing. *)
Definition silent_tool (name : pystr) (args : pyval) : outcome pystr :=
  Returned [].

(** A tool that answers in plain words. *)
Definition plain_tool (name : pystr) (args : pyval) : outcome pystr :=
  Returned (py "it is sunny").

(** A tool that answers with a thousand opening brackets. *)
Definition nested_tool (name : pystr) (args : pyval) : outcome pystr :=
  Returned (repeat 91%N 1000).

Definition test_agent : agent :=
  {| model := py "claude-test"; max_output_tokens := 1024;
     system_prompt := []; temperature := FFinite (py "0.0");
     thinking_enabled := false; thinking_budget_tokens := Some 1024;
     simulate := false |}.

Definition simulated_agent : agent :=
  {| model := py "claude-test"; max_output_tokens := 1024;
     system_prompt := []; temperature := FFinite (py "0.0");
     thinking_enabled := false; thinking_budget_tokens := Some 1024;
     simulate := true |}.

Definition block (t : block_type) (text : option pystr) : content_block :=
  {| cb_type := Some t; cb_text := text; cb_id := []; cb_name := [];
     cb_input := PNone |}.

Definition echo_request : content_block :=
  {| cb_type := Some BToolUse; cb_text := None; cb_id := py "tool-1";
     cb_name := py "echo"; cb_input := PDict [(py "x", PInt 1)] |}.

Definition second_request : content_block :=
  {| cb_type := Some BToolUse; cb_text := None; cb_id := py "tool-2";
     cb_name := py "echo"; cb_input := PNone |}.

Definition start_event (i : Z) (t : block_type) : event :=
  {| ev_type := ContentBlockStart; ev_index := Some i;
     ev_content_block := Some (block t None); ev_delta := None |}.

Definition text_event (i : Z) (text : pystr) : event :=
  {| ev_type := ContentBlockDelta; ev_index := Some i; ev_content_block := None;
     ev_delta := Some {| dl_type := Some TextDelta; dl_text := Some text;
                         dl_thinking := None |} |}.

Definition thinking_event (i : Z) (text : pystr) : event :=
  {| ev_type := ContentBlockDelta; ev_index := Some i; ev_content_block := None;
     ev_delta := Some {| dl_type := Some ThinkingDelta; dl_text := None;
                         dl_thinking := Some text |} |}.

Definition stop_event (i : Z) (b : option content_block) : event :=
  {| ev_type := ContentBlockStop; ev_index := Some i; ev_content_block := b;
     ev_delta := None |}.

Definition hi : list message :=
  [ {| role := py "user"; content := Given (PStr (py "hi")) |} ].

Definition question : list message :=
  [ {| role := py "user"; content := Given (PStr (py "2+2?")) |} ].

(** One text block ["4"], streamed as start, delta, stop. *)
Definition four_session : provider_round :=
  {| events := [ start_event 0 BText; text_event 0 (py "4");
                 stop_event 0 (Some (block BText (Some (py "4")))) ];
     final_message := Some [block BText (Some (py "4"))] |}.

(** The session of [test_agent_streams_thinking_separately]. *)
Definition thinking_session : provider_round :=
  {| events := [ start_event 0 BThinking; text_event 0 (py "inner thought");
                 stop_event 0 None;
                 start_event 1 BText; text_event 1 (py "final answer");
                 stop_event 1 None ];
     final_message := Some [block BText (Some (py "final answer"))] |}.

(** A session with thinking whose answer ends with a line feed. *)
Definition padded_session : provider_round :=
  {| events := [ start_event 0 BThinking; text_event 0 (py "inner thought");
                 stop_event 0 None;
                 start_event 1 BText; text_event 1 (py "final answer" ++ nl);
                 stop_event 1 None ];
     final_message := Some [block BText (Some (py "final answer" ++ nl))] |}.

(** A session that asks for two tool calls, then one that answers. *)
Definition tools_session : provider_round :=
  {| events := [ stop_event 0 (Some echo_request); stop_event 1 (Some second_request) ];
     final_message := Some [echo_request; second_request] |}.

(** A session that asks for one tool call. *)
Definition echo_session : provider_round :=
  {| events := [stop_event 0 (Some echo_request)];
     final_message := Some [echo_request] |}.

Definition answer_session : provider_round :=
  {| events := [ text_event 0 (py "final text") ];
     final_message := Some [block BText (Some (py "final text"))] |}.

(** A provider that asks for the same tool call in every round, whatever
    the conversation holds, and a tool that always answers. *)
Definition insistent : collaborators unit :=
  {| list_tools := fun w => (Returned [echo_definition], w);
     messages_stream := fun w _ =>
       ({| events := [stop_event 0 (Some echo_request)];
           final_message := Some [echo_request] |}, w);
     call_tool := fun w name args => (echo_tool name args, w);
     parse_float := FFinite;
     interpreter := cpython |}.

(** The number of provider sessions among the calls made. *)
Definition sessions_opened (cs : list external_call) : nat :=
  length (List.filter (fun c => match c with MessagesStream _ => true | _ => false end) cs).

End Scenario.

(* ================================================================== *)
(** * Properties of [json] *)
(* ================================================================== *)

Module JsonFacts.
Import Json.

(** ** The digits of an [int] *)

Lemma py_string_of_uint d : py (NilEmpty.string_of_uint d) = digits_of d.
Proof.
  unfold py. induction d; cbn [NilEmpty.string_of_uint String.list_ascii_of_string
    List.map digits_of]; [done | by rewrite IHd ..].
Qed.

Lemma digits_acc d : forall acc : positive,
  fold_left (fun acc c => (10 * acc + (Z.of_N c - 48))%Z) (digits_of d) (Z.pos acc)
  = Z.pos (Pos.of_uint_acc d acc).
Proof.
  induction d; intros acc; cbn [digits_of fold_left Pos.of_uint_acc]; [done | ..].
  all: rewrite <- IHd; f_equal; lia.
Qed.

Lemma digits_value_uint d : digits_value (digits_of d) = Z.of_N (Pos.of_uint d).
Proof.
  unfold digits_value.
  induction d; cbn [digits_of fold_left Pos.of_uint]; [done | exact IHd | ..].
  all: cbn [Z.of_N]; rewrite <- digits_acc; f_equal.
Qed.

Lemma nzhead_head d :
  match Decimal.nzhead d with Decimal.D0 _ => False | _ => True end.
Proof. induction d; cbn [Decimal.nzhead]; done. Qed.

(** The numeral of a positive number has a first digit, which is not 0. *)
Lemma to_uint_head p :
  match Pos.to_uint p with
  | Decimal.Nil | Decimal.D0 _ => False
  | _ => True
  end.
Proof.
  pose proof (DecimalPos.Unsigned.of_to p) as Hof.
  pose proof (DecimalPos.Unsigned.to_of (Pos.to_uint p)) as Hto.
  rewrite Hof in Hto. cbn [N.to_uint] in Hto.
  pose proof (nzhead_head (Pos.to_uint p)) as Hh.
  unfold Decimal.unorm in Hto.
  destruct (Decimal.nzhead (Pos.to_uint p)) eqn:E; rewrite Hto in *; done.
Qed.

(** [str(p)] for a positive [p]: the digits of its numeral. *)
Lemma str_of_positive p : str_of_int (Z.pos p) = digits_of (Pos.to_uint p).
Proof.
  unfold str_of_int. cbn [Z.to_int NilZero.string_of_int].
  pose proof (to_uint_head p) as Hh.
  assert (NilZero.string_of_uint (Pos.to_uint p)
          = NilEmpty.string_of_uint (Pos.to_uint p)) as ->.
  { by destruct (Pos.to_uint p). }
  apply py_string_of_uint.
Qed.

(** The value of [n] digits is below [10 ** n]. *)
Lemma digits_below d : forall acc : Z,
  (0 <= acc)%Z ->
  (fold_left (fun acc c => 10 * acc + (Z.of_N c - 48)) (digits_of d) acc
   < (acc + 1) * 10 ^ Z.of_nat (length (digits_of d)))%Z.
Proof.
  induction d; intros acc Hacc; cbn [digits_of fold_left length].
  { cbn. lia. }
  all: rewrite Nat2Z.inj_succ, Z.pow_succ_r by lia.
  all: match goal with |- (fold_left _ _ ?a < _)%Z =>
         assert (0 <= a)%Z as Ha by lia; specialize (IHd a Ha)
       end.
  all: pose proof (Z.pow_pos_nonneg 10 (Z.of_nat (length (digits_of d)))) as Hp.
  all: nia.
Qed.

(** The first digit of a numeral that does not start with 0 gives a lower
    bound: the value of [n] such digits is at least [10 ** (n - 1)]. *)
Lemma digits_above d : forall acc : Z,
  (0 <= acc)%Z ->
  (acc * 10 ^ Z.of_nat (length (digits_of d))
   <= fold_left (fun acc c => 10 * acc + (Z.of_N c - 48)) (digits_of d) acc)%Z.
Proof.
  induction d; intros acc Hacc; cbn [digits_of fold_left length].
  { cbn. lia. }
  all: rewrite Nat2Z.inj_succ, Z.pow_succ_r by lia.
  all: match goal with |- (_ <= fold_left _ _ ?a)%Z =>
         assert (0 <= a)%Z as Ha by lia; specialize (IHd a Ha)
       end.
  all: pose proof (Z.pow_pos_nonneg 10 (Z.of_nat (length (digits_of d)))) as Hp.
  all: nia.
Qed.

(** The number of digits of a positive [int], between two powers of ten. *)
Lemma int_digits_bounds p :
  (10 ^ (Z.of_nat (int_digits (Z.pos p)) - 1) <= Z.pos p
   < 10 ^ Z.of_nat (int_digits (Z.pos p)))%Z.
Proof.
  unfold int_digits. change (Z.abs (Z.pos p)) with (Z.pos p).
  rewrite str_of_positive.
  pose proof (digits_value_uint (Pos.to_uint p)) as Hv.
  rewrite DecimalPos.Unsigned.of_to in Hv. cbn [Z.of_N] in Hv.
  unfold digits_value in Hv. split.
  - pose proof (to_uint_head p) as Hh.
    destruct (Pos.to_uint p) as [|d|d|d|d|d|d|d|d|d|d] eqn:E; try done.
    all: cbn [digits_of fold_left length] in *.
    all: rewrite Nat2Z.inj_succ.
    all: replace (Z.succ (Z.of_nat (length (digits_of d))) - 1)%Z
           with (Z.of_nat (length (digits_of d))) by lia.
    all: match type of Hv with fold_left _ _ ?a = _ =>
           pose proof (digits_above d a ltac:(lia)) as Hlow
         end.
    all: pose proof (Z.pow_pos_nonneg 10 (Z.of_nat (length (digits_of d)))) as Hp.
    all: nia.
  - pose proof (digits_below (Pos.to_uint p) 0 ltac:(lia)) as Hup.
    rewrite Hv in Hup. lia.
Qed.

(** [json.dumps] and [json.loads] refuse an [int] exactly when its absolute
    value is at least [10 ** max_str_digits], for a limit that is set. *)
Lemma too_many_digits_iff lim z :
  too_many_digits lim (int_digits z) = true
  <-> (0 < max_str_digits lim)%N /\ (10 ^ Z.of_N (max_str_digits lim) <= Z.abs z)%Z.
Proof.
  unfold too_many_digits. rewrite andb_true_iff, !N.ltb_lt.
  assert ((0 < max_str_digits lim)%N ->
          ((max_str_digits lim < N.of_nat (int_digits z))%N
           <-> (10 ^ Z.of_N (max_str_digits lim) <= Z.abs z)%Z)) as H;
    [| by intuition].
  intros Hpos. destruct z as [|p|p]; cbn [Z.abs].
  - change (int_digits 0) with 1%nat. split; [lia |].
    intros H. pose proof (Z.pow_pos_nonneg 10 (Z.of_N (max_str_digits lim))). lia.
  - change (int_digits (Z.pos p)) with (int_digits (Z.pos p)).
    destruct (int_digits_bounds p) as [Hlow Hup]. split.
    + intros H. etransitivity; [| exact Hlow].
      apply Z.pow_le_mono_r; lia.
    + intros H. assert (10 ^ Z.of_N (max_str_digits lim)
                        < 10 ^ Z.of_nat (int_digits (Z.pos p)))%Z as Hlt by lia.
      apply Z.pow_lt_mono_r_iff in Hlt; lia.
  - change (int_digits (Z.neg p)) with (int_digits (Z.pos p)).
    destruct (int_digits_bounds p) as [Hlow Hup]. split.
    + intros H. etransitivity; [| exact Hlow].
      apply Z.pow_le_mono_r; lia.
    + intros H. assert (10 ^ Z.of_N (max_str_digits lim)
                        < 10 ^ Z.of_nat (int_digits (Z.pos p)))%Z as Hlt by lia.
      apply Z.pow_lt_mono_r_iff in Hlt; lia.
Qed.

(** ** Walking a value *)

Lemma refusal_list_cons lim depth x rest :
  refusal lim (S depth) (PList (x :: rest))
  = match refusal lim depth x with
    | Some e => Some e
    | None => refusal lim (S depth) (PList rest)
    end.
Proof. reflexivity. Qed.

Lemma refusal_dict_cons lim depth k x rest :
  refusal lim (S depth) (PDict ((k, x) :: rest))
  = match refusal lim depth x with
    | Some e => Some e
    | None => refusal lim (S depth) (PDict rest)
    end.
Proof. reflexivity. Qed.

Lemma refusal_int lim depth z :
  refusal lim depth (PInt z)
  = if too_many_digits lim (int_digits z) then Some ValueError else None.
Proof. reflexivity. Qed.

End JsonFacts.

(* ================================================================== *)
(** * Properties of the streaming encoder *)
(* ================================================================== *)

Module AdapterFacts.
Import OpenAIAdapter.

Lemma str_eqb_eq s t : str_eqb s t = true <-> s = t.
Proof. unfold str_eqb. apply bool_decide_eq_true. Qed.

Lemma str_eqb_refl s : str_eqb s s = true.
Proof. by apply str_eqb_eq. Qed.

Lemma str_eqb_neq s t : s <> t -> str_eqb s t = false.
Proof. intros H. unfold str_eqb. by apply bool_decide_eq_false. Qed.

Lemma dict_get_set_eq k v d : dict_get k (dict_set k v d) = Some v.
Proof.
  induction d as [|[k' v'] d IH]; simpl.
  - by rewrite str_eqb_refl.
  - destruct (str_eqb k k') eqn:E; simpl; rewrite E; [done | exact IH].
Qed.

Lemma dict_get_set_ne k k' v d :
  k <> k' -> dict_get k' (dict_set k v d) = dict_get k' d.
Proof.
  intros Hne. induction d as [|[k0 v0] d IH]; simpl.
  - rewrite str_eqb_neq; [done | congruence].
  - destruct (str_eqb k k0) eqn:E; simpl.
    + apply str_eqb_eq in E. subst k0.
      rewrite str_eqb_neq; [done | congruence].
    + destruct (str_eqb k' k0); [done | exact IH].
Qed.

Lemma dict_get_None_notin k d :
  dict_get k d = None <-> ~ In k (List.map fst d).
Proof.
  induction d as [|[k' v'] d IH]; simpl.
  - split; [intros _ [] | done].
  - destruct (str_eqb k k') eqn:E.
    + apply str_eqb_eq in E. subst. split; [done | intros H; destruct H; by left].
    + rewrite IH. split.
      * intros H [H1 | H1]; [| done]. subst. by rewrite str_eqb_refl in E.
      * intros H H1. apply H. by right.
Qed.

Lemma dict_get_update k d e :
  dict_wf e ->
  dict_get k (dict_update d e)
  = match dict_get k e with Some v => Some v | None => dict_get k d end.
Proof.
  unfold dict_update, dict_wf. revert d.
  induction e as [|[k1 v1] e IH]; intros d Hwf; simpl; [done |].
  inversion Hwf as [|? ? Hnotin Hwf']; subst.
  rewrite IH by done.
  destruct (str_eqb k k1) eqn:E.
  - apply str_eqb_eq in E. subst k1.
    assert (dict_get k e = None) as ->.
    { apply dict_get_None_notin. intros H. apply Hnotin.
      by apply list_elem_of_In. }
    apply dict_get_set_eq.
  - destruct (dict_get k e); [done |].
    apply dict_get_set_ne. intros ->. by rewrite str_eqb_refl in E.
Qed.

(** An item found by [dict_get] is an item of the dict. *)
Lemma dict_get_item k v d :
  dict_get k d = Some v -> exists before after, d = before ++ (k, v) :: after.
Proof.
  induction d as [|[k' v'] d IH]; simpl; [done |].
  destruct (str_eqb k k') eqn:E.
  - apply str_eqb_eq in E. subst k'. intros [= ->]. by exists [], d.
  - intros H. destruct (IH H) as (b & a & ->). by exists ((k', v') :: b), a.
Qed.

(** ** The text of a frame *)

Lemma join_item sep (before after : list pystr) x :
  exists left right, join sep (before ++ x :: after) = left ++ x ++ right.
Proof.
  induction before as [|b before (l & r & IH)].
  - destruct after as [|a after]; cbn [app join].
    + exists [], []. by rewrite app_nil_r.
    + exists [], (sep ++ join sep (a :: after)). done.
  - cbn [app]. change (join sep (b :: before ++ x :: after))
      with (match before ++ x :: after with
            | [] => b
            | _ :: _ => b ++ sep ++ join sep (before ++ x :: after)
            end).
    destruct (before ++ x :: after) eqn:E; [by destruct before |].
    rewrite IH. exists (b ++ sep ++ l), r. by rewrite <- !app_assoc.
Qed.

Lemma document_dict d :
  Json.document (PDict d)
  = py "{"
    ++ join (py ", ")
         (List.map (fun kv => Json.encode_string (fst kv) ++ py ": "
                              ++ Json.document (snd kv)) d)
    ++ py "}".
Proof. reflexivity. Qed.

(** Every item of a dict is written into its document as the key, a colon
    and the document of the value. *)
Lemma document_item k v d :
  dict_get k d = Some v ->
  exists left right,
    Json.document (PDict d)
    = left ++ (Json.encode_string k ++ py ": " ++ Json.document v) ++ right.
Proof.
  intros H. destruct (dict_get_item k v d H) as (b & a & ->).
  rewrite document_dict, List.map_app. cbn [List.map fst snd].
  destruct (join_item (py ", ")
              (List.map (fun kv => Json.encode_string (fst kv) ++ py ": "
                                   ++ Json.document (snd kv)) b)
              (List.map (fun kv => Json.encode_string (fst kv) ++ py ": "
                                   ++ Json.document (snd kv)) a)
              (Json.encode_string k ++ py ": " ++ Json.document v))
    as (l & r & E).
  unfold pystr in *. rewrite E.
  exists (py "{" ++ l), (r ++ py "}"). by rewrite <- !app_assoc.
Qed.

Lemma dumps_document lim v doc :
  Json.dumps lim v = inl doc -> doc = Json.document v.
Proof. unfold Json.dumps. destruct (Json.refusal _ _ _); congruence. Qed.

Lemma sse_frame_text lim payload frame :
  sse_frame lim payload = inl frame ->
  exists doc,
    Json.dumps lim (PDict payload) = inl doc
    /\ frame = py "data: " ++ doc ++ [10; 10]%N.
Proof.
  unfold sse_frame. destruct (Json.dumps lim (PDict payload)) as [doc|e]; [| done].
  intros [= <-]. exists doc. split; reflexivity.
Qed.

Lemma sse_frame_not_done lim payload frame :
  sse_frame lim payload = inl frame -> frame <> py "data: [DONE]" ++ [10; 10]%N.
Proof.
  intros H. destruct (sse_frame_text lim payload frame H) as (doc & Hd & ->).
  apply dumps_document in Hd. subst doc. cbn [Json.document].
  intros E. discriminate E.
Qed.

(** ** The loop over the chunks *)

Lemma async_for_chunks_complete lim base chunks :
  forallb (chunk_encodes lim base) chunks = true ->
  exists frames,
    async_for_chunks lim base chunks = (frames, None)
    /\ length frames = length chunks
    /\ Forall (fun f => f <> py "data: [DONE]" ++ [10; 10]%N) frames.
Proof.
  induction chunks as [|c chunks IH]; cbn [forallb async_for_chunks].
  - intros _. exists []. by repeat split.
  - intros H. apply andb_true_iff in H as [Hc Hrest].
    unfold chunk_encodes in Hc.
    destruct (sse_frame lim (chunk_payload base c)) as [frame|e] eqn:Hf; [| done].
    destruct (IH Hrest) as (frames & -> & Hlen & Hnone).
    exists (frame :: frames). split; [done |]. split; [by cbn; rewrite Hlen |].
    constructor; [by eapply sse_frame_not_done | done].
Qed.

Lemma async_for_chunks_raises lim base chunks :
  forallb (chunk_encodes lim base) chunks = false ->
  exists frames e,
    async_for_chunks lim base chunks = (frames, Some e)
    /\ (length frames < length chunks)%nat
    /\ Forall (fun f => f <> py "data: [DONE]" ++ [10; 10]%N) frames.
Proof.
  induction chunks as [|c chunks IH]; cbn [forallb async_for_chunks]; [done |].
  unfold chunk_encodes at 1.
  destruct (sse_frame lim (chunk_payload base c)) as [frame|e] eqn:Hf.
  - cbn [andb]. intros H. destruct (IH H) as (frames & e & -> & Hlen & Hnone).
    exists (frame :: frames), e. split; [done |]. split; [cbn; lia |].
    constructor; [by eapply sse_frame_not_done | done].
  - intros _. exists [], e. split; [done |]. split; [cbn; lia | constructor].
Qed.

Lemma async_for_chunks_reaches lim base pre chunk post frame :
  forallb (chunk_encodes lim base) pre = true ->
  sse_frame lim (chunk_payload base chunk) = inl frame ->
  fst (async_for_chunks lim base (pre ++ chunk :: post)) !! length pre = Some frame.
Proof.
  intros Hpre Hf. induction pre as [|c pre IH]; cbn [app async_for_chunks length].
  - rewrite Hf. by destruct (async_for_chunks lim base post).
  - cbn [forallb] in Hpre. apply andb_true_iff in Hpre as [Hc Hpre].
    unfold chunk_encodes in Hc.
    destruct (sse_frame lim (chunk_payload base c)) as [fc|e]; [| done].
    specialize (IH Hpre).
    destruct (async_for_chunks lim base (pre ++ chunk :: post)) as [frames raised].
    exact IH.
Qed.

Lemma no_done_filter (frames : list pystr) :
  Forall (fun f => f <> py "data: [DONE]" ++ [10; 10]%N) frames ->
  List.filter (fun f => bool_decide (f = py "data: [DONE]" ++ [10; 10]%N)) frames = [].
Proof.
  induction 1 as [|f frames Hf _ IH]; [done |].
  cbn [List.filter]. by rewrite bool_decide_false, IH.
Qed.

(** An [int] of 4301 digits is refused by an interpreter that was left as
    it comes, wherever the encoder meets it. *)
Lemma huge_int_refused depth :
  Json.refusal Scenario.cpython depth (PInt (10 ^ 4300)) = Some Json.ValueError.
Proof.
  rewrite JsonFacts.refusal_int.
  assert (Json.too_many_digits Scenario.cpython (Json.int_digits (10 ^ 4300)) = true)
    as ->; [| done].
  apply JsonFacts.too_many_digits_iff. split; [done |].
  change (Z.of_N (Json.max_str_digits Scenario.cpython)) with 4300.
  rewrite Z.abs_eq; [apply Z.le_refl | apply Z.pow_nonneg; lia].
Qed.

(** C5 (amended). When [json.dumps] writes the payload of every chunk of
    the source, the output of [async_sse_chat_completions] has one frame
    for each chunk and ends with the literal frame [data: [DONE]] followed
    by two line feeds, and this literal occurs exactly once in the output.
    When [json.dumps] refuses the payload of a chunk, the generator ends
    with that exception after fewer frames, none of which is the literal.
    For an empty source the literal frame is the whole output. *)
Theorem sse_output_ends_with_exactly_one_done
    (lim : Json.limits) (uuid_hex : pystr) (now : Z) (chunks : list pyval)
    (model : pystr) :
  let terminal := py "data: [DONE]" ++ [10; 10]%N in
  let base := _base_payload uuid_hex now model in
  let output := async_sse_chat_completions lim uuid_hex now chunks model in
  let found :=
    List.filter (fun f => bool_decide (f = terminal)) (fst output) in
  (forallb (chunk_encodes lim base) chunks = true ->
   snd output = None
   /\ last (fst output) = Some terminal
   /\ length found = 1%nat
   /\ length (fst output) = S (length chunks))
  /\ (forallb (chunk_encodes lim base) chunks = false ->
      (exists e, snd output = Some e)
      /\ found = []
      /\ (length (fst output) < S (length chunks))%nat)
  /\ async_sse_chat_completions lim uuid_hex now [] model = ([terminal], None).
Proof.
  cbv zeta. unfold async_sse_chat_completions.
  split; [| split; [| done]].
  - intros H.
    destruct (async_for_chunks_complete lim _ chunks H) as (frames & -> & Hlen & Hnone).
    cbn [fst snd]. split; [done |]. split; [by rewrite last_snoc |]. split.
    + rewrite List.filter_app, no_done_filter by done.
      cbn [List.filter app]. by rewrite bool_decide_true.
    + rewrite length_app, Hlen. cbn. lia.
  - intros H.
    destruct (async_for_chunks_raises lim _ chunks H)
      as (frames & e & -> & Hlen & Hnone).
    cbn [fst snd]. split; [by exists e |]. split; [by apply no_done_filter | lia].
Qed.

(** The two chunks of [test_async_sse_chat_completions_handles_preformed_chunks]. *)
Lemma sse_output_ends_with_exactly_one_done_witness :
  let chunks :=
    [ PDict [ (py "delta", PDict [(py "content", PStr (py "piece"))]);
              (py "finish_reason", PNone) ];
      PDict [ (py "choices",
                PList [PDict [ (py "index", PInt 0);
                               (py "delta", PDict [(py "content", PStr (py "done"))]);
                               (py "finish_reason", PStr (py "stop")) ]]);
              (py "object", PStr (py "chat.completion.chunk")) ] ] in
  let output :=
    async_sse_chat_completions Scenario.cpython (py "0f") 17 chunks (py "model-async") in
  snd output = None
  /\ last (fst output) = Some (py "data: [DONE]" ++ [10; 10]%N)
  /\ length
       (List.filter (fun f => bool_decide (f = py "data: [DONE]" ++ [10; 10]%N))
          (fst output)) = 1%nat
  /\ length (fst output) = S (length chunks).
Proof.
  cbv zeta.
  apply (proj1 (sse_output_ends_with_exactly_one_done Scenario.cpython (py "0f") 17
                  [ PDict [ (py "delta", PDict [(py "content", PStr (py "piece"))]);
                            (py "finish_reason", PNone) ];
                    PDict [ (py "choices",
                              PList [PDict [ (py "index", PInt 0);
                                             (py "delta",
                                               PDict [(py "content", PStr (py "done"))]);
                                             (py "finish_reason", PStr (py "stop")) ]]);
                            (py "object", PStr (py "chat.completion.chunk")) ] ]
                  (py "model-async"))).
  reflexivity.
Defined.

(** C5, as stated, fails on a source whose second chunk is an [int] of 4301
    digits: [json.dumps] refuses it with [ValueError], the generator ends
    there, and its output is the frame of the first chunk alone, without
    the literal frame. *)
Lemma refused_chunk_leaves_no_done_frame :
  let output :=
    async_sse_chat_completions Scenario.cpython (py "0f") 17
      [PStr (py "hi"); PInt (10 ^ 4300)] (py "m") in
  snd output = Some Json.ValueError
  /\ length (fst output) = 1%nat
  /\ List.filter (fun f => bool_decide (f = py "data: [DONE]" ++ [10; 10]%N))
       (fst output) = []
  /\ last (fst output) <> Some (py "data: [DONE]" ++ [10; 10]%N).
Proof.
  cbv zeta.
  pose proof huge_int_refused as Hbig.
  remember (10 ^ 4300) as big eqn:Hdef. clear Hdef.
  assert (sse_frame Scenario.cpython
            (chunk_payload (_base_payload (py "0f") 17 (py "m")) (PInt big))
          = inr Json.ValueError) as Hrefused.
  { unfold sse_frame, Json.dumps.
    change (Json.encoder_depth Scenario.cpython) with 900%nat.
    assert (chunk_payload (_base_payload (py "0f") 17 (py "m")) (PInt big)
            = [ (py "id", PStr (py "chatcmpl-0f"));
                (py "object", PStr (py "chat.completion.chunk"));
                (py "created", PInt 17);
                (py "model", PStr (py "m"));
                (py "choices",
                  PList [PDict [ (py "index", PInt 0);
                                 (py "delta", PDict [(py "content", PInt big)]);
                                 (py "finish_reason", PNone) ]]) ]) as ->
      by reflexivity.
    rewrite !JsonFacts.refusal_dict_cons, JsonFacts.refusal_list_cons,
      !JsonFacts.refusal_dict_cons, Hbig.
    reflexivity. }
  destruct (sse_frame Scenario.cpython
              (chunk_payload (_base_payload (py "0f") 17 (py "m")) (PStr (py "hi"))))
    as [first|e] eqn:Hfirst; [| by vm_compute in Hfirst].
  pose proof (sse_frame_not_done _ _ _ Hfirst) as Hne.
  unfold async_sse_chat_completions. cbn [async_for_chunks].
  rewrite Hfirst, Hrefused. cbn [fst snd length last List.filter].
  split; [done |]. split; [done |]. split.
  - by rewrite bool_decide_false.
  - intros [= E]. by apply Hne.
Qed.

(** C6 (amended). A dict chunk that has a [choices] key is not rewrapped.
    When [json.dumps] writes the payloads of the chunks before it and the
    payload [{**base, **chunk}] of the chunk itself, the frame emitted for
    the chunk is [data: ], the document of that payload and two line
    feeds. In the payload [choices] and every other key of the chunk keep
    the chunk's value, and the envelope fields [id], [object], [created]
    and [model] appear only for the keys the chunk leaves undefined; in the
    text of the frame every item of the chunk stands as its key, a colon
    and the document of its value. *)
Theorem preshaped_chunk_is_forwarded
    (lim : Json.limits) (uuid_hex : pystr) (now : Z) (model : pystr)
    (pre post : list pyval) (d : pydict) (choices : pyval) :
  dict_wf d ->
  dict_get (py "choices") d = Some choices ->
  let base := _base_payload uuid_hex now model in
  forallb (chunk_encodes lim base) pre = true ->
  chunk_encodes lim base (PDict d) = true ->
  exists payload doc,
    fst (async_sse_chat_completions lim uuid_hex now (pre ++ PDict d :: post) model)
      !! length pre
    = Some (py "data: " ++ doc ++ [10; 10]%N)
    /\ Json.dumps lim (PDict payload) = inl doc
    /\ dict_get (py "choices") payload = Some choices
    /\ (forall k v, dict_get k d = Some v -> dict_get k payload = Some v)
    /\ (forall k, dict_get k d = None -> dict_get k payload = dict_get k base)
    /\ (forall k v, dict_get k d = Some v ->
        exists left right,
          doc = left ++ (Json.encode_string k ++ py ": " ++ Json.document v) ++ right).
Proof.
  intros Hwf Hc base Hpre Hd.
  unfold chunk_encodes in Hd.
  destruct (sse_frame lim (chunk_payload base (PDict d))) as [frame|e] eqn:Hf; [| done].
  destruct (sse_frame_text _ _ _ Hf) as (doc & Hdoc & ->).
  assert (chunk_payload base (PDict d) = dict_update base d) as Hp.
  { unfold chunk_payload, dict_mem. by rewrite Hc. }
  rewrite Hp in Hdoc.
  exists (dict_update base d), doc.
  assert (forall k v, dict_get k d = Some v -> dict_get k (dict_update base d) = Some v)
    as Hkeep.
  { intros k v Hk. rewrite dict_get_update by done. by rewrite Hk. }
  split; [| split; [exact Hdoc |]].
  - unfold async_sse_chat_completions. fold base.
    pose proof (async_for_chunks_reaches lim base pre (PDict d) post _ Hpre Hf) as Hat.
    destruct (async_for_chunks lim base (pre ++ PDict d :: post)) as [frames [e|]];
      cbn [fst] in *; [exact Hat |].
    rewrite lookup_app_l; [exact Hat |]. by eapply lookup_lt_Some.
  - split; [by apply Hkeep |]. split; [exact Hkeep |]. split.
    + intros k Hk. rewrite dict_get_update by done. by rewrite Hk.
    + intros k v Hk. apply dumps_document in Hdoc. subst doc.
      apply document_item. by apply Hkeep.
Qed.

(** The pre-shaped chunk of
    [test_async_sse_chat_completions_handles_preformed_chunks], after a
    chunk that is wrapped. *)
Lemma preshaped_chunk_is_forwarded_witness :
  let d := [ (py "choices",
               PList [PDict [ (py "index", PInt 0);
                              (py "delta", PDict [(py "content", PStr (py "done"))]);
                              (py "finish_reason", PStr (py "stop")) ]]);
             (py "object", PStr (py "chat.completion.chunk")) ] in
  let first := PDict [ (py "delta", PDict [(py "content", PStr (py "piece"))]);
                       (py "finish_reason", PNone) ] in
  let base := _base_payload (py "0f") 17 (py "model-async") in
  exists payload doc,
    fst (async_sse_chat_completions Scenario.cpython (py "0f") 17
           ([first] ++ PDict d :: []) (py "model-async"))
      !! length [first]
    = Some (py "data: " ++ doc ++ [10; 10]%N)
    /\ Json.dumps Scenario.cpython (PDict payload) = inl doc
    /\ dict_get (py "choices") payload = dict_get (py "choices") d
    /\ (forall k v, dict_get k d = Some v -> dict_get k payload = Some v)
    /\ (forall k, dict_get k d = None -> dict_get k payload = dict_get k base)
    /\ (forall k v, dict_get k d = Some v ->
        exists left right,
          doc = left ++ (Json.encode_string k ++ py ": " ++ Json.document v) ++ right).
Proof.
  cbv zeta.
  apply (preshaped_chunk_is_forwarded Scenario.cpython (py "0f") 17 (py "model-async")).
  - unfold dict_wf. refine (bool_decide_unpack _ _). vm_compute. exact I.
  - reflexivity.
  - reflexivity.
  - reflexivity.
Defined.

(** C6, as stated, fails on a chunk with a [choices] key that holds an
    [int] of 4301 digits under another key: [json.dumps] refuses the merged
    payload with [ValueError], and no frame is emitted for the chunk. *)
Lemma refused_preshaped_chunk_is_not_forwarded :
  let d := [ (py "choices", PList []); (py "created", PInt (10 ^ 4300)) ] in
  dict_get (py "choices") d = Some (PList [])
  /\ async_sse_chat_completions Scenario.cpython (py "0f") 17 [PDict d] (py "m")
     = ([], Some Json.ValueError).
Proof.
  cbv zeta. split; [reflexivity |].
  pose proof huge_int_refused as Hbig.
  remember (10 ^ 4300) as big eqn:Hdef. clear Hdef.
  unfold async_sse_chat_completions. cbn [async_for_chunks].
  assert (sse_frame Scenario.cpython
            (chunk_payload (_base_payload (py "0f") 17 (py "m"))
               (PDict [ (py "choices", PList []); (py "created", PInt big) ]))
          = inr Json.ValueError) as ->; [| reflexivity].
  unfold sse_frame, Json.dumps.
  change (Json.encoder_depth Scenario.cpython) with 900%nat.
  assert (chunk_payload (_base_payload (py "0f") 17 (py "m"))
            (PDict [ (py "choices", PList []); (py "created", PInt big) ])
          = [ (py "id", PStr (py "chatcmpl-0f"));
              (py "object", PStr (py "chat.completion"));
              (py "created", PInt big);
              (py "model", PStr (py "m"));
              (py "choices", PList []) ]) as -> by reflexivity.
  rewrite !JsonFacts.refusal_dict_cons, Hbig. reflexivity.
Qed.

End AdapterFacts.

(* ================================================================== *)
(** * Properties of the tool-use loop *)
(* ================================================================== *)

Module AgentFacts.
Import Agent.

#[local] Arguments Json.dumps : simpl never.
#[local] Arguments Json.dumps_indent2 : simpl never.
#[local] Arguments Json.document : simpl never.
#[local] Arguments Json.document_indent2 : simpl never.
#[local] Arguments Json.loads : simpl never.
#[local] Arguments Json.error_name : simpl never.
#[local] Arguments calling_log : simpl never.
#[local] Arguments result_log : simpl never.
#[local] Arguments py : simpl never.
#[local] Arguments no_content : simpl never.
#[local] Arguments content_chunk : simpl never.
#[local] Arguments thinking_chunk : simpl never.
#[local] Arguments tool_call_chunk : simpl never.
#[local] Arguments delta_chunk : simpl never.
#[local] Arguments finish_chunk : simpl never.
#[local] Arguments request_kwargs : simpl never.
#[local] Arguments final_answer : simpl never.
#[local] Arguments to_tool_result : simpl never.
#[local] Arguments assistant_message : simpl never.
#[local] Arguments tool_results_message : simpl never.
#[local] Arguments tool_arguments : simpl never.
#[local] Arguments declared_thinking : simpl never.
#[local] Arguments parsed_tool_output : simpl never.
#[local] Arguments rendered_output : simpl never.
#[local] Arguments shown_output : simpl never.

(** Unfolds the primitive statements of the generator. *)
Ltac step_m :=
  unfold when, bind, ret, get, modify, raise, yield, conversation_append,
    answer_parts_append, thinking_parts_extend, block_types_set,
    tool_requests_append, tool_results_append, start_round,
    start_tool_results, start_conversation, json_dumps, json_dumps_indent2,
    json; cbn.

Ltac split_ifs :=
  repeat match goal with
    | |- context [if ?b then _ else _] => destruct b eqn:?; cbn
    | |- context [match ?x with _ => _ end] => destruct x eqn:?; cbn
    end.

(** Runs the statements whose effect is a plain update of the variables. *)
Ltac run_m :=
  cbn [bind ret get modify raise when yield conversation_append
       answer_parts_append thinking_parts_extend block_types_set
       tool_requests_append tool_results_append start_round
       start_tool_results start_conversation
       conversation answer_parts thinking_parts block_types
       tool_requests tool_results yielded world calls fst snd].

(** ** Trimming *)

Lemma lstrip_spaces ws s :
  forallb is_space ws = true -> lstrip (ws ++ s) = lstrip s.
Proof.
  induction ws as [|c ws IH]; cbn; [done |].
  intros H. apply andb_true_iff in H as [Hc Hws]. rewrite Hc. by apply IH.
Qed.

Lemma rstrip_spaces s ws :
  forallb is_space ws = true -> rstrip (s ++ ws) = rstrip s.
Proof.
  intros H. unfold rstrip. rewrite rev_app_distr, lstrip_spaces; [done |].
  rewrite forallb_forall in *. intros x Hx. apply H. by apply in_rev.
Qed.

Lemma lstrip_app s ws :
  lstrip (s ++ ws) = match lstrip s with [] => lstrip ws | t => t ++ ws end.
Proof.
  induction s as [|c s IH]; cbn; [by destruct (lstrip ws) |].
  destruct (is_space c); [exact IH | done].
Qed.

Lemma strip_trailing_spaces s ws :
  forallb is_space ws = true -> strip (s ++ ws) = strip s.
Proof.
  intros H. unfold strip. rewrite lstrip_app.
  destruct (lstrip s) as [|c t] eqn:E.
  - rewrite <- (app_nil_r ws), lstrip_spaces by done. done.
  - by rewrite rstrip_spaces.
Qed.

Lemma lstrip_keeps c s : is_space c = false -> lstrip (c :: s) = c :: s.
Proof. intros H. cbn. by rewrite H. Qed.

(** What [lstrip] drops is white space, and what it keeps does not start
    with white space. *)
Lemma lstrip_spec s :
  exists dropped,
    s = dropped ++ lstrip s
    /\ forallb is_space dropped = true
    /\ match lstrip s with [] => True | c :: _ => is_space c = false end.
Proof.
  induction s as [|c s (d & IH & Hd & Hh)]; cbn [lstrip]; [by exists [] |].
  destruct (is_space c) eqn:Hc.
  - exists (c :: d). cbn. rewrite Hc, Hd. by rewrite <- IH.
  - exists []. by rewrite Hc.
Qed.

Lemma lstrip_suffix s : exists dropped, s = dropped ++ lstrip s.
Proof. destruct (lstrip_spec s) as (d & H & _). by exists d. Qed.

Lemma lstrip_past pre c tail :
  is_space c = false -> exists kept, lstrip (pre ++ c :: tail) = kept ++ c :: tail.
Proof.
  intros Hc. induction pre as [|x pre [k IH]]; cbn.
  - rewrite Hc. by exists [].
  - destruct (is_space x); [by exists k |]. by exists (x :: pre).
Qed.

(** Trimming never reaches into a text that starts and ends with a
    character that is not white space. *)
Lemma strip_keeps_core a core z tail :
  is_space a = false -> is_space z = false ->
  exists rest, strip (a :: core ++ z :: tail) = a :: core ++ z :: rest.
Proof.
  intros Ha Hz. unfold strip. rewrite lstrip_keeps by done. unfold rstrip.
  change (a :: core ++ z :: tail) with ((a :: core) ++ z :: tail).
  set (A := a :: core).
  replace (rev (A ++ z :: tail)) with (rev tail ++ z :: rev A).
  2:{ rewrite rev_app_distr. cbn [rev]. by rewrite <- app_assoc. }
  destruct (lstrip_past (rev tail) z (rev A) Hz) as [k ->].
  exists (rev k). rewrite rev_app_distr.
  change (rev (z :: rev A)) with (rev (rev A) ++ [z]).
  rewrite rev_involutive. subst A. cbn. by rewrite <- app_assoc.
Qed.

Lemma forallb_rev {A} (f : A -> bool) l : forallb f (rev l) = forallb f l.
Proof.
  induction l as [|x l IH]; [done |].
  cbn [rev forallb]. rewrite forallb_app, IH. cbn. by rewrite andb_true_r, andb_comm.
Qed.

(** [strip] removes white space, and only white space, from both ends:
    the text is what was removed in front, the result, and what was
    removed behind; the result neither starts nor ends with white space. *)
Lemma strip_spec s :
  exists lead trail,
    s = lead ++ strip s ++ trail
    /\ forallb is_space lead = true
    /\ forallb is_space trail = true
    /\ match strip s with [] => True | c :: _ => is_space c = false end
    /\ match last (strip s) with None => True | Some c => is_space c = false end.
Proof.
  destruct (lstrip_spec s) as (lead & Hs & Hlead & Hhead).
  destruct (lstrip_spec (rev (lstrip s))) as (back & Hr & Hback & Hlast).
  exists lead, (rev back). unfold strip, rstrip.
  set (core := lstrip (rev (lstrip s))) in *.
  assert (lstrip s = rev core ++ rev back) as Hl.
  { rewrite <- rev_app_distr, <- Hr. by rewrite rev_involutive. }
  split; [by rewrite <- Hl |]. split; [exact Hlead |].
  split; [by rewrite forallb_rev |]. split.
  - rewrite Hl in Hhead. destruct (rev core) as [|c t] eqn:E; [done |]. exact Hhead.
  - destruct core as [|c t]; [done |]. cbn [rev]. by rewrite last_snoc.
Qed.

(** ** The statements of the generator *)

Lemma answer_parts_for_each {W} l : forall s : vars W,
  for_each l answer_parts_append s
  = (Returned tt,
     {| conversation := conversation s; answer_parts := answer_parts s ++ l;
        thinking_parts := thinking_parts s; block_types := block_types s;
        tool_requests := tool_requests s; tool_results := tool_results s;
        yielded := yielded s; world := world s; calls := calls s |}).
Proof.
  induction l as [|x l IH]; intros s; cbn [for_each].
  - unfold ret. rewrite app_nil_r. by destruct s.
  - unfold bind, answer_parts_append, modify. rewrite IH. cbn.
    by rewrite <- app_assoc.
Qed.

(** Enters a round up to the loop over the events of [session]. *)
Ltac enter_round Hs :=
  unfold round; run_m; unfold bind at 1, external at 1; run_m;
  rewrite Hs; unfold bind at 1.

(** After the event loop, up to the test on [tool_requests]. *)
Ltac leave_stream Hf :=
  rewrite Hf; unfold bind at 1, ret at 1;
  unfold bind at 1, conversation_append at 1, modify;
  unfold bind at 1; rewrite answer_parts_for_each;
  unfold bind at 1, thinking_parts_extend at 1, modify;
  unfold bind at 1, get at 1; cbn [tool_requests].

(** [json.dumps] returns the document of the value when it returns. *)
Lemma dumps_returns lim v doc :
  Json.dumps lim v = inl doc -> doc = Json.document v.
Proof. unfold Json.dumps. destruct (Json.refusal _ _ _); congruence. Qed.

Lemma dumps_indent2_returns lim v doc :
  Json.dumps_indent2 lim v = inl doc -> doc = Json.document_indent2 v.
Proof. unfold Json.dumps_indent2. destruct (Json.refusal _ _ _); congruence. Qed.

Lemma arguments_encode_dumps {W} (collab : collaborators W) tu :
  arguments_encode collab tu = true ->
  Json.dumps (interpreter collab) (tool_arguments tu)
    = inl (Json.document (tool_arguments tu))
  /\ Json.dumps_indent2 (interpreter collab) (tool_arguments tu)
     = inl (Json.document_indent2 (tool_arguments tu)).
Proof.
  unfold arguments_encode.
  destruct (Json.dumps _ _) as [a|] eqn:Ha; [| done].
  destruct (Json.dumps_indent2 _ _) as [p|] eqn:Hp; [| done].
  intros _. by rewrite (dumps_returns _ _ _ Ha), (dumps_indent2_returns _ _ _ Hp).
Qed.

Lemma output_decodes_shown {W} (collab : collaborators W) out :
  output_decodes collab out = true ->
  exists parsed,
    parsed_tool_output collab out = inl parsed
    /\ rendered_output collab parsed = inl (shown_output collab out).
Proof.
  unfold output_decodes, shown_output.
  destruct (parsed_tool_output collab out) as [parsed|] eqn:Hp; [| done].
  destruct (rendered_output collab parsed) as [r|] eqn:Hr; [| done].
  intros _. exists parsed. split; [done |].
  unfold rendered_output in *.
  destruct parsed; cbn in *;
    try done; rewrite Hr; f_equal; by apply dumps_returns in Hr.
Qed.

Ltac solve_extends :=
  first [ by exists []; rewrite app_nil_r | rewrite <- ?app_assoc; by eexists ].

Ltac finish_event :=
  eexists; split; [reflexivity |]; cbn; split; [by auto |];
  split; [by rewrite ?app_nil_r |]; solve_extends.

Section Statements.
Context {W : Type}.
Variable collab : collaborators W.
Variable self : agent.
Variable stream_mode : bool.
Variable include_tool_logs : bool.

Lemma on_event_returns e (s : vars W) :
  forallb (arguments_encode collab) (finalized_of e) = true ->
  exists s', on_event collab stream_mode e s = (Returned tt, s')
    /\ same_outside_stream s s'
    /\ tool_requests s' = tool_requests s ++ finalized_of e
    /\ exists live, yielded s' = yielded s ++ live.
Proof.
  unfold on_event, finalized_of, same_outside_stream, is_event, content_block_type.
  destruct e as [ty idx cb dl]; cbn [ev_type ev_content_block ev_index ev_delta].
  destruct ty.
  4:{ intros _. step_m. finish_event. }
  3:{ destruct cb as [b|].
      2:{ intros _. step_m. split_ifs. all: finish_event. }
      destruct (bool_decide (cb_type b = Some BToolUse)) eqn:Hb.
      2:{ intros _. step_m. split_ifs. all: finish_event. }
      cbn [forallb]. rewrite andb_true_r. intros Henc.
      destruct (arguments_encode_dumps collab b Henc) as [Hd _].
      step_m.
      destruct stream_mode; cbn; rewrite ?Hd; cbn; split_ifs.
      all: finish_event. }
  all: intros _; step_m; split_ifs.
  all: finish_event.
Qed.

Lemma events_return evs (s : vars W) :
  forallb (arguments_encode collab) (finalized_tool_uses evs) = true ->
  exists s', for_each evs (on_event collab stream_mode) s = (Returned tt, s')
    /\ same_outside_stream s s'
    /\ tool_requests s' = tool_requests s ++ finalized_tool_uses evs
    /\ exists live, yielded s' = yielded s ++ live.
Proof.
  revert s. induction evs as [|e evs IH]; intros s Henc.
  - exists s. cbn. unfold same_outside_stream. rewrite app_nil_r.
    repeat split. by exists []; rewrite app_nil_r.
  - unfold finalized_tool_uses in Henc. cbn [flat_map] in Henc.
    rewrite forallb_app in Henc. apply andb_true_iff in Henc as [He Hrest].
    destruct (on_event_returns e s He) as (s1 & H1 & F1 & T1 & l1 & Y1).
    destruct (IH s1 Hrest) as (s2 & H2 & F2 & T2 & l2 & Y2).
    exists s2. cbn [for_each]. unfold bind. rewrite H1, H2.
    split; [done |]. split; [| split].
    + unfold same_outside_stream in *. intuition congruence.
    + rewrite T2, T1. unfold finalized_tool_uses. cbn [flat_map].
      by rewrite app_assoc.
    + exists (l1 ++ l2). by rewrite Y2, Y1, app_assoc.
Qed.

Lemma on_tool_use_returned tu (s : vars W) out w1 :
  arguments_encode collab tu = true ->
  call_tool collab (world s) (cb_name tu) (tool_arguments tu) = (Returned out, w1) ->
  output_decodes collab out = true ->
  exists s', on_tool_use collab stream_mode include_tool_logs tu s = (Returned tt, s')
    /\ conversation s' = conversation s
    /\ thinking_parts s' = thinking_parts s
    /\ tool_requests s' = tool_requests s
    /\ tool_results s' = tool_results s ++ [to_tool_result tu out]
    /\ world s' = w1
    /\ calls s' = calls s ++ [CallTool (cb_name tu) (tool_arguments tu)]
    /\ yielded s' = yielded s ++ tool_chunks collab stream_mode include_tool_logs tu out.
Proof.
  intros Henc Hcall Hdec.
  destruct (arguments_encode_dumps collab tu Henc) as [Hd Hi].
  destruct (output_decodes_shown collab out Hdec) as (parsed & Hp & Hr).
  unfold on_tool_use, await, external, tool_chunks.
  destruct stream_mode, include_tool_logs; step_m; rewrite ?Hd, ?Hi; cbn;
    rewrite Hcall; cbn; rewrite Hp; cbn.
  all: destruct (nonempty out); cbn; rewrite ?Hr; cbn.
  all: eexists; split; [reflexivity |]; cbn; rewrite ?app_nil_r, <- ?app_assoc;
    by auto 10.
Qed.

Lemma on_tool_use_raised tu (s : vars W) e w1 :
  arguments_encode collab tu = true ->
  call_tool collab (world s) (cb_name tu) (tool_arguments tu) = (Raised e, w1) ->
  exists s', on_tool_use collab stream_mode include_tool_logs tu s = (Raised e, s').
Proof.
  intros Henc Hcall.
  destruct (arguments_encode_dumps collab tu Henc) as [Hd Hi].
  unfold on_tool_use, await, external.
  destruct stream_mode, include_tool_logs; step_m; rewrite ?Hd, ?Hi; cbn;
    rewrite Hcall; cbn.
  all: eexists; reflexivity.
Qed.

Lemma tools_return reqs : forall (s : vars W) outs w2,
  forallb (arguments_encode collab) reqs = true ->
  call_tools collab (world s) reqs = (Returned outs, w2) ->
  forallb (output_decodes collab) outs = true ->
  exists s', for_each reqs (on_tool_use collab stream_mode include_tool_logs) s
             = (Returned tt, s')
    /\ conversation s' = conversation s
    /\ thinking_parts s' = thinking_parts s
    /\ tool_results s' = tool_results s ++ zip_with to_tool_result reqs outs
    /\ length outs = length reqs
    /\ world s' = w2
    /\ calls s'
       = calls s ++ List.map (fun tu => CallTool (cb_name tu) (tool_arguments tu)) reqs
    /\ yielded s'
       = yielded s
         ++ List.concat
              (zip_with (tool_chunks collab stream_mode include_tool_logs) reqs outs).
Proof.
  induction reqs as [|tu reqs IH]; intros s outs w2 Henc H Hdec; cbn in H.
  - inversion H; subst. exists s. cbn. by rewrite !app_nil_r.
  - cbn [forallb] in Henc. apply andb_true_iff in Henc as [Htu Henc].
    destruct (call_tool collab (world s) (cb_name tu) (tool_arguments tu))
      as [[out|e] w1] eqn:Hc; [| done].
    destruct (call_tools collab w1 reqs) as [[outs'|e] w2'] eqn:Hr; [| done].
    inversion H; subst.
    cbn [forallb] in Hdec. apply andb_true_iff in Hdec as [Hout Hdec].
    destruct (on_tool_use_returned tu s out w1 Htu Hc Hout)
      as (s1 & H1 & C1 & T1 & Q1 & R1 & W1 & K1 & Y1).
    subst w1.
    destruct (IH s1 outs' w2 Henc Hr Hdec) as (s2 & H2 & C2 & T2 & R2 & L2 & W2 & K2 & Y2).
    exists s2. cbn [for_each]. unfold bind at 1. rewrite H1, H2.
    repeat split; try congruence.
    + rewrite R2, R1. cbn. by rewrite <- app_assoc.
    + cbn. congruence.
    + rewrite K2, K1. cbn. by rewrite <- app_assoc.
    + rewrite Y2, Y1. cbn. by rewrite <- app_assoc.
Qed.

Lemma round_without_tools tools (s : vars W) session w1 blocks :
  messages_stream collab (world s) (request_kwargs self tools (conversation s))
    = (session, w1) ->
  final_message session = Some blocks ->
  finalized_tool_uses (events session) = [] ->
  exists s', round collab self stream_mode include_tool_logs tools s = (Returned true, s')
    /\ conversation s' = conversation s ++ [assistant_message blocks]
    /\ answer_parts s' = answer_parts s ++ text_blocks blocks
    /\ world s' = w1
    /\ calls s' = calls s ++ [MessagesStream (request_kwargs self tools (conversation s))].
Proof.
  intros Hs Hf Hn. enter_round Hs.
  match goal with |- context [for_each (events session) _ ?s0] =>
    destruct (events_return (events session) s0)
      as (s1 & H1 & (C1 & A1 & R1 & W1 & K1) & T1 & _); [by rewrite Hn |]
  end.
  rewrite H1. cbn in C1, A1, R1, W1, K1, T1. rewrite Hn in T1.
  leave_stream Hf. rewrite T1.
  eexists. split; [reflexivity |]. cbn.
  by rewrite C1, A1, W1, K1.
Qed.

Lemma round_with_tools tools (s : vars W) session w1 blocks outs w2 :
  messages_stream collab (world s) (request_kwargs self tools (conversation s))
    = (session, w1) ->
  final_message session = Some blocks ->
  finalized_tool_uses (events session) <> [] ->
  forallb (arguments_encode collab) (finalized_tool_uses (events session)) = true ->
  call_tools collab w1 (finalized_tool_uses (events session)) = (Returned outs, w2) ->
  forallb (output_decodes collab) outs = true ->
  exists s' streamed,
    round collab self stream_mode include_tool_logs tools s = (Returned false, s')
    /\ conversation s'
       = conversation s
         ++ [ assistant_message blocks;
              tool_results_message
                (zip_with to_tool_result (finalized_tool_uses (events session)) outs) ]
    /\ length outs = length (finalized_tool_uses (events session))
    /\ world s' = w2
    /\ calls s'
       = calls s
         ++ MessagesStream (request_kwargs self tools (conversation s))
            :: List.map (fun tu => CallTool (cb_name tu) (tool_arguments tu))
                 (finalized_tool_uses (events session))
    /\ yielded s'
       = yielded s ++ streamed
         ++ List.concat
              (zip_with (tool_chunks collab stream_mode include_tool_logs)
                 (finalized_tool_uses (events session)) outs).
Proof.
  intros Hs Hf Hn Henc Hc Hdec. enter_round Hs.
  match goal with |- context [for_each (events session) _ ?s0] =>
    destruct (events_return (events session) s0 Henc)
      as (s1 & H1 & (C1 & A1 & R1 & W1 & K1) & T1 & streamed & Y1)
  end.
  rewrite H1. cbn in C1, A1, R1, W1, K1, T1, Y1.
  leave_stream Hf. rewrite T1.
  destruct (finalized_tool_uses (events session)) as [|tu reqs] eqn:Hreqs; [done |].
  unfold bind at 1, start_tool_results at 1, modify.
  unfold bind at 1.
  match goal with |- context [for_each (tu :: reqs) _ ?s0] =>
    destruct (tools_return (tu :: reqs) s0 outs w2 Henc)
      as (s2 & H2 & C2 & T2 & R2 & L2 & W2 & K2 & Y2);
      [cbn [world]; by rewrite W1 | exact Hdec |]
  end.
  rewrite H2. cbn in C2, T2, R2, W2, K2, Y2.
  unfold bind at 1, get at 1.
  unfold bind at 1, conversation_append at 1, modify.
  eexists. exists streamed. split; [reflexivity |]. cbn [conversation world calls yielded].
  rewrite C2, R2, C1, K2, K1, Y2, Y1. by rewrite <- !app_assoc.
Qed.

End Statements.


(** ** Collected mode yields nothing before the end *)

Section Silence.
Context {W : Type}.

Lemma silent_ret {A} (a : A) : silent (W := W) (ret a).
Proof. by intros s. Qed.

Lemma silent_raise {A} e : silent (W := W) (raise (A := A) e).
Proof. by intros s. Qed.

Lemma silent_get {A} (f : vars W -> A) : silent (get f).
Proof. by intros s. Qed.

Lemma silent_bind {A B} (m : M (W := W) A) (k : A -> M (W := W) B) :
  silent m -> (forall a, silent (k a)) -> silent (bind m k).
Proof.
  intros Hm Hk s. unfold bind. specialize (Hm s).
  destruct (m s) as [[a|e] s1]; cbn in *; [| done].
  by rewrite Hk.
Qed.

Lemma silent_when b (m : M (W := W) unit) : silent m -> silent (when b m).
Proof. destruct b; [done | intros _; apply silent_ret]. Qed.

Lemma silent_for_each {A} (l : list A) (body : A -> M (W := W) unit) :
  (forall x, silent (body x)) -> silent (for_each l body).
Proof.
  intros H. induction l as [|x l IH]; cbn [for_each]; [apply silent_ret |].
  apply silent_bind; [apply H | intros _; exact IH].
Qed.

Lemma silent_modify (f : vars W -> vars W) :
  (forall s, yielded (f s) = yielded s) -> silent (modify f).
Proof. intros H s. apply H. Qed.

Lemma silent_external {A} c (f : W -> A * W) : silent (external c f).
Proof. intros s. unfold external. by destruct (f (world s)). Qed.

Lemma silent_await {A} c (f : W -> outcome A * W) : silent (await c f).
Proof.
  unfold await. apply silent_bind; [apply silent_external |].
  intros [a|e]; [apply silent_ret | apply silent_raise].
Qed.

Lemma silent_json {A} (r : A + Json.error) : silent (W := W) (json r).
Proof. destruct r; [apply silent_ret | apply silent_raise]. Qed.

End Silence.

Ltac solve_silent :=
  repeat lazymatch goal with
    | |- silent (bind _ _) => apply silent_bind; [| intros ?]
    | |- silent (when false _) => apply silent_ret
    | |- silent (when (_ && false) _) => rewrite andb_false_r
    | |- silent (when _ _) => apply silent_when
    | |- silent (for_each _ _) => apply silent_for_each; intros ?
    | |- silent (await _ _) => apply silent_await
    | |- silent (external _ _) => apply silent_external
    | |- silent (json _) => apply silent_json
    | |- silent (json_dumps _ _) => apply silent_json
    | |- silent (json_dumps_indent2 _ _) => apply silent_json
    | |- silent (if ?b then _ else _) => destruct b
    | |- silent (match ?x with _ => _ end) => destruct x
    | |- silent (yield _) => fail
    | |- silent _ => by intros ?
    end.

Section Collected.
Context {W : Type}.
Variable collab : collaborators W.
Variable self : agent.
Variable include_tool_logs : bool.

Lemma on_event_silent e : silent (W := W) (on_event collab false e).
Proof. unfold on_event. rewrite !andb_false_r. solve_silent. Qed.

Lemma on_tool_use_silent tu :
  silent (on_tool_use collab false include_tool_logs tu).
Proof. unfold on_tool_use. cbn [andb]. solve_silent. Qed.

Lemma round_silent tools : silent (round collab self false include_tool_logs tools).
Proof.
  unfold round. solve_silent.
  - apply on_event_silent.
  - apply on_tool_use_silent.
Qed.

Lemma while_true_silent fuel tools :
  silent (while_true collab self false include_tool_logs fuel tools).
Proof.
  induction fuel as [|fuel IH]; cbn [while_true]; [apply silent_ret |].
  apply silent_bind; [apply round_silent |].
  intros [|]; [apply silent_ret | exact IH].
Qed.

End Collected.

(** ** The batch of tool results *)

Lemma tool_use_ids reqs : forall outs,
  length outs = length reqs ->
  List.map tool_use_id (zip_with to_tool_result reqs outs) = List.map cb_id reqs.
Proof.
  induction reqs as [|tu reqs IH]; intros [|out outs] H; cbn in *; try done.
  f_equal. apply IH. lia.
Qed.

Lemma to_tool_result_record tool_use out :
  to_tool_result tool_use out
  = {| result_type := py "tool_result";
       tool_use_id := cb_id tool_use;
       result_content :=
         if nonempty out then out else py "No content returned by tool." |}.
Proof. unfold to_tool_result. by destruct out. Qed.

Lemma tool_results_written reqs outs :
  zip_with to_tool_result reqs outs
  = zip_with
      (fun tool_use out =>
         {| result_type := py "tool_result";
            tool_use_id := cb_id tool_use;
            result_content :=
              if nonempty out then out else py "No content returned by tool." |})
      reqs outs.
Proof.
  revert outs. induction reqs as [|tu reqs IH]; intros [|out outs]; cbn; try done.
  by rewrite to_tool_result_record, IH.
Qed.






(** ** Tool output that is not JSON *)

Lemma undecodable_output {W} (collab : collaborators W) out :
  Json.loads (interpreter collab) (parse_float collab) out = inr Json.JSONDecodeError ->
  parsed_tool_output collab out = inl (PStr out)
  /\ shown_output collab out = out
  /\ output_decodes collab out = true.
Proof.
  intros H. unfold output_decodes, shown_output, parsed_tool_output.
  by rewrite H.
Qed.





(** ** When the loop ends *)

Lemma while_true_step {W} (collab : collaborators W) self mode logs fuel tools
    (s : vars W) :
  while_true collab self mode logs (S fuel) tools s
  = match round collab self mode logs tools s with
    | (Returned true, s') => (Returned true, s')
    | (Returned false, s') => while_true collab self mode logs fuel tools s'
    | (Raised e, s') => (Raised e, s')
    end.
Proof.
  cbn [while_true]. unfold bind.
  destruct (round collab self mode logs tools s) as [[[|]|e] s']; reflexivity.
Qed.

Lemma sessions_opened_app cs ds :
  Scenario.sessions_opened (cs ++ ds)
  = (Scenario.sessions_opened cs + Scenario.sessions_opened ds)%nat.
Proof. unfold Scenario.sessions_opened. by rewrite List.filter_app, length_app. Qed.

Lemma sessions_opened_round req (reqs : list content_block) :
  Scenario.sessions_opened
    (MessagesStream req
     :: List.map (fun tu => CallTool (cb_name tu) (tool_arguments tu)) reqs) = 1%nat.
Proof.
  unfold Scenario.sessions_opened. cbn [List.filter length]. f_equal.
  induction reqs as [|tu reqs IH]; [done | exact IH].
Qed.

Lemma insistent_round mode logs tools (s : vars unit) :
  exists s',
    round Scenario.insistent Scenario.test_agent mode logs tools s = (Returned false, s')
    /\ Scenario.sessions_opened (calls s') = S (Scenario.sessions_opened (calls s)).
Proof.
  destruct (round_with_tools Scenario.insistent Scenario.test_agent mode logs tools s
              {| events := [Scenario.stop_event 0 (Some Scenario.echo_request)];
                 final_message := Some [Scenario.echo_request] |} tt
              [Scenario.echo_request]
              [Json.document (PDict [(py "result", tool_arguments Scenario.echo_request)])]
              tt)
    as (s' & streamed & Hr & _ & _ & _ & K & _);
    [by destruct (world s) | done | done | done | done | by vm_compute |].
  exists s'. split; [exact Hr |].
  rewrite K, sessions_opened_app, sessions_opened_round. lia.
Qed.

Lemma insistent_loop mode logs tools n : forall s : vars unit,
  exists s',
    while_true Scenario.insistent Scenario.test_agent mode logs n tools s
    = (Returned false, s')
    /\ Scenario.sessions_opened (calls s') = (Scenario.sessions_opened (calls s) + n)%nat.
Proof.
  induction n as [|n IH]; intros s.
  - exists s. split; [reflexivity | lia].
  - destruct (insistent_round mode logs tools s) as (s1 & H1 & K1).
    destruct (IH s1) as (s2 & H2 & K2).
    exists s2. rewrite while_true_step, H1. split; [exact H2 | lia].
Qed.



(** ** The collected answer *)

Lemma join_cons sep p rest :
  join sep (p :: rest)
  = p ++ match rest with [] => [] | _ => sep ++ join sep rest end.
Proof. destruct rest; cbn [join]; [by rewrite app_nil_r | done]. Qed.

(** The text up to the Answer label survives the final trimming. *)
Lemma thoughts_survive_strip thinking tail :
  exists rest,
    strip (py "**Thoughts:**" ++ nl ++ nl ++ List.concat thinking ++ nl ++ nl
           ++ py "---" ++ nl ++ nl ++ py "**Answer:**" ++ tail)
    = py "**Thoughts:**" ++ nl ++ nl ++ List.concat thinking ++ nl ++ nl
      ++ py "---" ++ nl ++ nl ++ py "**Answer:**" ++ rest.
Proof.
  set (core := py "*Thoughts:**" ++ nl ++ nl ++ List.concat thinking ++ nl ++ nl
               ++ py "---" ++ nl ++ nl ++ py "**Answer:*").
  destruct (strip_keeps_core 42%N core 42%N tail) as [rest Hrest]; [done | done |].
  exists rest.
  assert (forall t, py "**Thoughts:**" ++ nl ++ nl ++ List.concat thinking ++ nl ++ nl
                    ++ py "---" ++ nl ++ nl ++ py "**Answer:**" ++ t
                    = 42%N :: core ++ 42%N :: t) as E.
  { intros t. subst core. rewrite <- !app_assoc.
    change (py "**Thoughts:**") with (42%N :: py "*Thoughts:**").
    change (py "**Answer:**") with (py "**Answer:*" ++ [42%N]).
    cbn [app]. by rewrite <- !app_assoc. }
  by rewrite !E.
Qed.

(** The sections that are joined, written out. *)
Lemma final_sections_written thinking answer :
  final_sections thinking answer
  = match thinking with
    | [] => List.filter nonempty answer
    | _ =>
        ((py "**Thoughts:**" ++ nl ++ nl ++ List.concat thinking ++ nl ++ nl
          ++ py "---" ++ nl ++ nl ++ py "**Answer:**") ++ nl ++ nl)
        :: List.filter nonempty answer
    end.
Proof.
  unfold final_sections, thoughts_section. destruct thinking; [done |].
  cbn [app]. by rewrite <- !app_assoc.
Qed.

(** C8. In collected mode, a run that comes to its end has emitted exactly
    one value, the composite answer. The composite is the join, by blank
    lines, of the sections (the non-empty answer fragments, after the
    Thoughts section when thinking text was captured), trimmed: what the
    join has more than the composite is white space in front and white
    space behind, and the composite neither starts nor ends with white
    space. When thinking text was captured nothing is removed in front,
    and the composite begins with the Thoughts label, the joined thinking
    fragments, the separator and the Answer label. *)
Theorem collected_output_is_one_composite
    {W} (collab : collaborators W) (self : agent) (logs : bool)
    (messages : list message) (fuel : nat) (w : W) (s' : vars W) :
  simulate self = false ->
  ask_stream collab self false logs messages fuel (initial w) = (Returned true, s') ->
  let thinking := thinking_parts s' in
  let answer := List.filter nonempty (answer_parts s') in
  let thoughts :=
    py "**Thoughts:**" ++ nl ++ nl ++ List.concat thinking ++ nl ++ nl
    ++ py "---" ++ nl ++ nl ++ py "**Answer:**" in
  let sections :=
    match thinking with
    | [] => answer
    | _ => (thoughts ++ nl ++ nl) :: answer
    end in
  exists composite lead trail,
    yielded s' = [PStr composite]
    /\ join (nl ++ nl) sections = lead ++ composite ++ trail
    /\ forallb is_space lead = true
    /\ forallb is_space trail = true
    /\ match composite with [] => True | c :: _ => is_space c = false end
    /\ match last composite with None => True | Some c => is_space c = false end
    /\ (thinking <> [] -> lead = [] /\ exists rest, composite = thoughts ++ rest).
Proof.
  intros Hsim Hrun thinking answer thoughts sections.
  set (composite := final_answer (thinking_parts s') (answer_parts s')).
  assert (yielded s' = [PStr composite]) as Hy.
  { unfold ask_stream in Hrun. rewrite Hsim in Hrun.
    unfold bind at 1, await, bind at 1, external in Hrun.
    destruct (list_tools collab (world (initial w))) as [[listed|e] w0]; [| done].
    unfold ret at 1 in Hrun.
    unfold bind at 1, start_conversation at 1, modify in Hrun.
    unfold bind at 1 in Hrun.
    match type of Hrun with context [while_true _ _ _ _ _ ?tools ?s0] =>
      pose proof (while_true_silent collab self logs fuel tools s0) as Hsil;
      destruct (while_true collab self false logs fuel tools s0)
        as [[[|]|e] s2] eqn:Hloop; [| done | done]
    end.
    cbn in Hsil. run_m. cbn in Hrun. inversion Hrun; subst s'. cbn.
    by rewrite Hsil. }
  assert (composite = strip (join (nl ++ nl) sections)) as Hc.
  { subst composite sections thoughts answer thinking.
    unfold final_answer. by rewrite final_sections_written. }
  destruct (strip_spec (join (nl ++ nl) sections))
    as (lead & trail & Hsplit & Hlead & Htrail & Hhead & Hlast).
  rewrite <- Hc in Hsplit, Hhead, Hlast.
  exists composite, lead, trail.
  split; [exact Hy |]. split; [exact Hsplit |]. split; [exact Hlead |].
  split; [exact Htrail |]. split; [exact Hhead |]. split; [exact Hlast |].
  intros Hne.
  assert (exists tail, join (nl ++ nl) sections = thoughts ++ tail) as [tail Htail].
  { subst sections. destruct thinking as [|t ts] eqn:Ht; [done |].
    rewrite join_cons. rewrite <- app_assoc. by eexists. }
  split.
  - destruct lead as [|c lead]; [done |].
    rewrite Htail in Hsplit. subst thoughts.
    cbn in Hsplit. injection Hsplit as <- _. done.
  - rewrite Hc, Htail. subst thoughts.
    destruct (thoughts_survive_strip thinking tail) as [rest Hrest].
    exists rest. rewrite <- !app_assoc. exact Hrest.
Qed.

(** A session with thinking whose answer ends with a line feed, collected:
    the line feed is trimmed. *)
Lemma collected_output_is_one_composite_witness :
  let s' := snd (ask_stream (Scenario.scripted Scenario.echo_tool) Scenario.test_agent
                   false true Scenario.hi 2 (initial [Scenario.padded_session])) in
  let thinking := thinking_parts s' in
  let answer := List.filter nonempty (answer_parts s') in
  let thoughts :=
    py "**Thoughts:**" ++ nl ++ nl ++ List.concat thinking ++ nl ++ nl
    ++ py "---" ++ nl ++ nl ++ py "**Answer:**" in
  let sections :=
    match thinking with
    | [] => answer
    | _ => (thoughts ++ nl ++ nl) :: answer
    end in
  exists composite lead trail,
    yielded s' = [PStr composite]
    /\ join (nl ++ nl) sections = lead ++ composite ++ trail
    /\ forallb is_space lead = true
    /\ forallb is_space trail = true
    /\ match composite with [] => True | c :: _ => is_space c = false end
    /\ match last composite with None => True | Some c => is_space c = false end
    /\ (thinking <> [] -> lead = [] /\ exists rest, composite = thoughts ++ rest).
Proof.
  cbv zeta.
  apply (collected_output_is_one_composite (Scenario.scripted Scenario.echo_tool)
           Scenario.test_agent true Scenario.hi 2 [Scenario.padded_session]).
  - reflexivity.
  - vm_compute. reflexivity.
Defined.


(** ** Simulation *)

(** C10. An agent built with [simulate=True] answers with a constant: two
    runs in the same mode emit the same sequence whatever the messages, the
    collaborators, the tool-log flag and the state of the world are; in
    stream mode it is the delta with the text [Simulated response.]
    followed by the [finish_reason: stop] marker, in collected mode the
    single string [Simulated response.]; and no call is made to the
    provider or to the tool executor. *)
Theorem simulated_run_is_constant
    {W1 W2} (c1 : collaborators W1) (c2 : collaborators W2)
    (self1 self2 : agent) (mode logs1 logs2 : bool)
    (messages1 messages2 : list message) (fuel1 fuel2 : nat)
    (w1 : W1) (w2 : W2) :
  simulate self1 = true ->
  simulate self2 = true ->
  let run1 := ask_stream c1 self1 mode logs1 messages1 fuel1 (initial w1) in
  let run2 := ask_stream c2 self2 mode logs2 messages2 fuel2 (initial w2) in
  fst run1 = Returned true
  /\ fst run2 = Returned true
  /\ yielded (snd run1) = yielded (snd run2)
  /\ yielded (snd run1)
     = (if mode
        then [ delta_chunk [(py "content", PStr (py "Simulated response."))];
               PDict [ (py "delta", PDict []);
                       (py "finish_reason", PStr (py "stop")) ] ]
        else [PStr (py "Simulated response.")])
  /\ calls (snd run1) = []
  /\ calls (snd run2) = []
  /\ world (snd run1) = w1
  /\ world (snd run2) = w2.
Proof.
  intros H1 H2. cbv zeta. unfold ask_stream. rewrite H1, H2.
  destruct mode; cbn; by repeat split.
Qed.

(** Two different questions, two different providers. *)
Lemma simulated_run_is_constant_witness :
  let run1 := ask_stream (Scenario.scripted Scenario.echo_tool)
                Scenario.simulated_agent true true Scenario.hi 3
                (initial [Scenario.four_session]) in
  let run2 := ask_stream Scenario.insistent Scenario.simulated_agent true false
                Scenario.question 0 (initial tt) in
  fst run1 = Returned true
  /\ fst run2 = Returned true
  /\ yielded (snd run1) = yielded (snd run2)
  /\ yielded (snd run1)
     = [ delta_chunk [(py "content", PStr (py "Simulated response."))];
         PDict [ (py "delta", PDict []);
                 (py "finish_reason", PStr (py "stop")) ] ]
  /\ calls (snd run1) = []
  /\ calls (snd run2) = []
  /\ world (snd run1) = [Scenario.four_session]
  /\ world (snd run2) = tt.
Proof.
  cbv zeta.
  apply (simulated_run_is_constant (Scenario.scripted Scenario.echo_tool)
           Scenario.insistent Scenario.simulated_agent Scenario.simulated_agent
           true true false Scenario.hi Scenario.question 3 0
           [Scenario.four_session] tt).
  - reflexivity.
  - reflexivity.
Defined.

(** ** Thinking fragments in the live stream *)

(** C4 (amended). In live mode a thinking fragment is emitted as one delta
    that carries the fragment under the key [thinking] and repeats it under
    the key [content]; an answer fragment is emitted as a delta with the
    key [content] only. The key [thinking] is what tells the two apart, and
    only thinking fragments are added to the thinking parts. *)
Theorem thinking_fragment_delta
    {W} (collab : collaborators W) (e : event) (s : vars W) (fragment : pystr) :
  ev_type e = ContentBlockDelta ->
  delta_text_of e = fragment ->
  fragment <> [] ->
  exists s',
    on_event collab true e s = (Returned tt, s')
    /\ if declared_thinking s (ev_index e) || has_thinking e || tagged_thinking e
       then yielded s' = yielded s ++ [thinking_chunk fragment]
            /\ thinking_parts s' = thinking_parts s ++ [fragment]
            /\ chunk_thinking (thinking_chunk fragment) = Some (PStr fragment)
            /\ chunk_content (thinking_chunk fragment) = Some (PStr fragment)
       else yielded s' = yielded s ++ [content_chunk fragment]
            /\ thinking_parts s' = thinking_parts s
            /\ chunk_thinking (content_chunk fragment) = None
            /\ chunk_content (content_chunk fragment) = Some (PStr fragment).
Proof.
  intros Hty Htext Hne. unfold on_event, is_event. rewrite Hty, Htext.
  destruct fragment as [|c fragment]; [done |].
  cbn [andb nonempty]. step_m.
  destruct (declared_thinking s (ev_index e) || has_thinking e || tagged_thinking e);
    cbn; eexists; (split; [reflexivity |]); cbn; by rewrite ?app_nil_r.
Qed.

(** A thinking delta of the provider, and a text delta inside a block that
    was declared as thinking. *)
Lemma thinking_fragment_delta_witness :
  exists s',
    on_event Scenario.insistent true (Scenario.thinking_event 0 (py "inner thought"))
      (initial tt)
    = (Returned tt, s')
    /\ (yielded s' = [] ++ [thinking_chunk (py "inner thought")]
        /\ thinking_parts s' = [] ++ [py "inner thought"]
        /\ chunk_thinking (thinking_chunk (py "inner thought"))
           = Some (PStr (py "inner thought"))
        /\ chunk_content (thinking_chunk (py "inner thought"))
           = Some (PStr (py "inner thought"))).
Proof.
  apply (thinking_fragment_delta Scenario.insistent
           (Scenario.thinking_event 0 (py "inner thought"))
           (initial tt) (py "inner thought")).
  - reflexivity.
  - reflexivity.
  - discriminate.
Defined.

(** C4, as stated, fails on the stream of
    [test_agent_streams_thinking_separately]: the second chunk of the live
    run is the delta of the thinking fragment, and its [content] is the
    thinking text. *)
Lemma thinking_text_is_under_content :
  yielded
    (snd (ask_stream (Scenario.scripted Scenario.echo_tool) Scenario.test_agent
            true true Scenario.hi 2 (initial [Scenario.thinking_session])))
    !! 1%nat
  = Some (delta_chunk [ (py "thinking", PStr (py "inner thought"));
                        (py "content", PStr (py "inner thought")) ])
  /\ chunk_content
       (delta_chunk [ (py "thinking", PStr (py "inner thought"));
                      (py "content", PStr (py "inner thought")) ])
     = Some (PStr (py "inner thought"))
  /\ thinking_parts
       (snd (ask_stream (Scenario.scripted Scenario.echo_tool) Scenario.test_agent
               true true Scenario.hi 2 (initial [Scenario.thinking_session])))
     = [py "inner thought"].
Proof. repeat split; vm_compute; reflexivity. Qed.

(** ** Live deltas against the collected answer *)

Lemma live_content_app xs ys :
  live_content (xs ++ ys) = live_content xs ++ live_content ys.
Proof.
  induction xs as [|x xs IH]; cbn [app live_content]; [done |].
  destruct (chunk_content x) as [[| | | |t| |]|]; try exact IH.
  by rewrite IH, app_assoc.
Qed.

Lemma live_content_chunk t : live_content [content_chunk t] = t.
Proof.
  cbn [live_content].
  change (chunk_content (content_chunk t)) with (Some (PStr t)).
  cbn iota. apply app_nil_r.
Qed.

Lemma for_each_app {W A} (xs ys : list A) (body : A -> M unit) (s : vars W) :
  for_each (xs ++ ys) body s
  = match for_each xs body s with
    | (Returned _, s') => for_each ys body s'
    | (Raised e, s') => (Raised e, s')
    end.
Proof.
  revert s. induction xs as [|x xs IH]; intros s; cbn [app for_each]; [done |].
  unfold bind. destruct (body x s) as [[[]|e] s1]; [apply IH | done].
Qed.

Section PlainStream.
Context {W : Type}.
Variable collab : collaborators W.
Variable mode : bool.

Lemma undeclared_insert (s : vars W) bts i t :
  undeclared s ->
  t <> Some BThinking ->
  bts = <[i := t]> (block_types s) ->
  forall j, bool_decide (bts !! j = Some (Some BThinking)) = false.
Proof.
  intros Hu Ht -> j. apply bool_decide_eq_false.
  destruct (decide (i = j)) as [->|Hne].
  - rewrite lookup_insert_eq. congruence.
  - rewrite lookup_insert_ne by done.
    specialize (Hu j). unfold declared_thinking in Hu.
    by apply bool_decide_eq_false in Hu.
Qed.

Lemma same_but_output_trans (s1 s2 s3 : vars W) :
  same_but_output s1 s2 -> same_but_output s2 s3 -> same_but_output s1 s3.
Proof.
  unfold same_but_output, same_outside_stream. intros H1 H2.
  repeat split; intuition (try congruence).
Qed.

Lemma not_thinking_type (o : option block_type) :
  negb (bool_decide (o = Some BThinking)) = true -> o <> Some BThinking.
Proof. intros H E. rewrite bool_decide_true in H by done. done. Qed.

Lemma start_event_run e (s : vars W) :
  ev_type e = ContentBlockStart ->
  negb (bool_decide (content_block_type e = Some BThinking)) = true ->
  undeclared s ->
  exists s', on_event collab mode e s = (Returned tt, s')
    /\ same_but_output s s' /\ yielded s' = yielded s.
Proof.
  intros Hty Hnt Hu. apply not_thinking_type in Hnt.
  unfold on_event, is_event. rewrite Hty. cbn [andb]. step_m.
  unfold declared_thinking at 1. cbn [block_types].
  rewrite (undeclared_insert s _ (ev_index e) (content_block_type e) Hu Hnt eq_refl).
  cbn. eexists. split; [reflexivity |].
  split; [| done].
  unfold same_but_output, same_outside_stream, undeclared, declared_thinking.
  cbn. repeat split.
  intros j. by apply (undeclared_insert s _ (ev_index e) (content_block_type e)).
Qed.

Lemma other_event_run e (s : vars W) :
  ev_type e = OtherEvent ->
  undeclared s ->
  exists s', on_event collab mode e s = (Returned tt, s')
    /\ same_but_output s s' /\ yielded s' = yielded s.
Proof.
  intros Hty Hu. unfold on_event, is_event. rewrite Hty. cbn [andb]. step_m.
  exists s. by repeat split.
Qed.

Lemma answer_event_run e (s : vars W) :
  answer_event e = true ->
  undeclared s ->
  exists s', on_event collab mode e s = (Returned tt, s')
    /\ same_but_output s s'
    /\ live_content (yielded s')
       = live_content (yielded s)
         ++ (if mode
             then (if is_event ContentBlockDelta e then delta_text_of e else [])
             else []).
Proof.
  intros Ha Hu. unfold answer_event in Ha.
  destruct (ev_type e) eqn:Hty; [| | done |].
  - destruct (start_event_run e s Hty Ha Hu) as (s' & H & F & Y).
    exists s'. split; [exact H |]. split; [exact F |].
    unfold is_event. rewrite Hty, Y. destruct mode; by rewrite app_nil_r.
  - apply andb_true_iff in Ha as [Hh Ht].
    apply negb_true_iff in Hh, Ht.
    unfold on_event, is_event. rewrite Hty. cbn [andb]. step_m.
    destruct (delta_text_of e) as [|c txt] eqn:Htxt; cbn.
    + exists s. split; [reflexivity |]. split; [by repeat split |].
      destruct mode; by rewrite app_nil_r.
    + rewrite (Hu (ev_index e)), Hh, Ht. cbn.
      destruct mode; cbn; eexists; (split; [reflexivity |]); cbn.
      * split; [by repeat split |].
        by rewrite live_content_app, live_content_chunk.
      * split; [by repeat split |]. by rewrite app_nil_r.
  - destruct (other_event_run e s Hty Hu) as (s' & H & F & Y).
    exists s'. split; [exact H |]. split; [exact F |].
    unfold is_event. rewrite Hty, Y. destruct mode; by rewrite app_nil_r.
Qed.

Lemma closing_event_run e (s : vars W) :
  closing_event e = true ->
  undeclared s ->
  exists s' ws, on_event collab mode e s = (Returned tt, s')
    /\ same_but_output s s'
    /\ forallb is_space ws = true
    /\ live_content (yielded s')
       = live_content (yielded s) ++ (if mode then ws else []).
Proof.
  intros Hc Hu. unfold closing_event in Hc.
  destruct (ev_type e) eqn:Hty.
  - destruct (start_event_run e s Hty Hc Hu) as (s' & H & F & Y).
    exists s', []. split; [exact H |]. split; [exact F |]. split; [done |].
    rewrite Y. destruct mode; by rewrite app_nil_r.
  - apply negb_true_iff in Hc.
    unfold on_event, is_event. rewrite Hty. cbn [andb]. step_m.
    destruct (delta_text_of e) as [|c txt] eqn:Htxt; [| done]. cbn.
    exists s, []. split; [reflexivity |]. split; [by repeat split |].
    split; [done |]. destruct mode; by rewrite app_nil_r.
  - apply negb_true_iff, bool_decide_eq_false in Hc.
    unfold on_event, is_event. rewrite Hty. cbn [andb]. step_m.
    rewrite (bool_decide_false _ Hc).
    destruct mode; cbn.
    + rewrite (Hu (ev_index e)). cbn.
      eexists. exists nl. split; [reflexivity |]. cbn.
      split; [by repeat split |]. split; [done |].
      by rewrite live_content_app, live_content_chunk.
    + exists s, []. split; [reflexivity |]. split; [by repeat split |].
      split; [done |]. by rewrite app_nil_r.
  - destruct (other_event_run e s Hty Hu) as (s' & H & F & Y).
    exists s', []. split; [exact H |]. split; [exact F |]. split; [done |].
    rewrite Y. destruct mode; by rewrite app_nil_r.
Qed.

Lemma answer_events_run body : forall s : vars W,
  forallb answer_event body = true ->
  undeclared s ->
  exists s', for_each body (on_event collab mode) s = (Returned tt, s')
    /\ same_but_output s s'
    /\ live_content (yielded s')
       = live_content (yielded s) ++ (if mode then streamed_text body else []).
Proof.
  induction body as [|e body IH]; intros s Hb Hu.
  - exists s. split; [reflexivity |]. split; [by repeat split |].
    destruct mode; by rewrite app_nil_r.
  - cbn [forallb] in Hb. apply andb_true_iff in Hb as [He Hb].
    destruct (answer_event_run e s He Hu) as (s1 & H1 & F1 & Y1).
    destruct (IH s1 Hb) as (s2 & H2 & F2 & Y2); [apply F1 |].
    exists s2. cbn [for_each]. unfold bind. rewrite H1, H2.
    split; [done |]. split; [by eapply same_but_output_trans |].
    rewrite Y2, Y1. unfold streamed_text. cbn [List.map List.concat].
    destruct mode; by rewrite <- ?app_assoc, ?app_nil_r.
Qed.

Lemma closing_events_run closing : forall s : vars W,
  forallb closing_event closing = true ->
  undeclared s ->
  exists s' ws, for_each closing (on_event collab mode) s = (Returned tt, s')
    /\ same_but_output s s'
    /\ forallb is_space ws = true
    /\ live_content (yielded s')
       = live_content (yielded s) ++ (if mode then ws else []).
Proof.
  induction closing as [|e closing IH]; intros s Hb Hu.
  - exists s, []. split; [reflexivity |]. split; [by repeat split |].
    split; [done |]. destruct mode; by rewrite app_nil_r.
  - cbn [forallb] in Hb. apply andb_true_iff in Hb as [He Hb].
    destruct (closing_event_run e s He Hu) as (s1 & ws1 & H1 & F1 & S1 & Y1).
    destruct (IH s1 Hb) as (s2 & ws2 & H2 & F2 & S2 & Y2); [apply F1 |].
    exists s2, (ws1 ++ ws2). cbn [for_each]. unfold bind. rewrite H1, H2.
    split; [done |]. split; [by eapply same_but_output_trans |].
    split; [by rewrite forallb_app, S1, S2 |].
    rewrite Y2, Y1. destruct mode; by rewrite <- ?app_assoc, ?app_nil_r.
Qed.

End PlainStream.

Lemma initial_round_undeclared {W} (s : vars W) :
  block_types s = ∅ -> undeclared s.
Proof.
  intros E i. unfold declared_thinking. rewrite E.
  apply bool_decide_eq_false. by rewrite lookup_empty.
Qed.

Lemma text_blocks_single block (text : pystr) :
  cb_type block <> Some BThinking ->
  cb_text block = Some text ->
  text_blocks [block] = (if nonempty text then [text] else [])
  /\ thinking_blocks [block] = [].
Proof.
  intros Hty Htx. unfold text_blocks, thinking_blocks, block_text. cbn.
  rewrite (bool_decide_false _ Hty), Htx. by destruct (nonempty text).
Qed.

(** A round whose stream is the body of one answer, then closing events. *)
Lemma plain_round {W} (collab : collaborators W) self mode logs tools (s : vars W)
    session w1 body closing block :
  messages_stream collab (world s) (request_kwargs self tools (conversation s))
    = (session, w1) ->
  events session = body ++ closing ->
  forallb answer_event body = true ->
  forallb closing_event closing = true ->
  final_message session = Some [block] ->
  cb_type block <> Some BThinking ->
  cb_text block = Some (streamed_text body) ->
  exists s' ws,
    round collab self mode logs tools s = (Returned true, s')
    /\ thinking_parts s' = thinking_parts s
    /\ answer_parts s'
       = answer_parts s
         ++ (if nonempty (streamed_text body) then [streamed_text body] else [])
    /\ forallb is_space ws = true
    /\ live_content (yielded s')
       = live_content (yielded s)
         ++ (if mode then streamed_text body ++ ws else []).
Proof.
  intros Hs Hev Hb Hc Hf Hty Htx.
  destruct (text_blocks_single block _ Hty Htx) as [Htb Hkb].
  enter_round Hs. rewrite Hev, for_each_app.
  match goal with |- context [for_each body _ ?s0] =>
    destruct (answer_events_run collab mode body s0 Hb) as (s1 & H1 & F1 & Y1);
      [by apply initial_round_undeclared |]
  end.
  rewrite H1.
  assert (undeclared s1) as U1 by apply F1.
  destruct (closing_events_run collab mode closing s1 Hc U1)
    as (s2 & ws & H2 & F2 & S2 & Y2).
  rewrite H2.
  unfold same_but_output, same_outside_stream in F1, F2.
  destruct F1 as ((C1 & A1 & R1 & W1 & K1) & P1 & T1 & _).
  destruct F2 as ((C2 & A2 & R2 & W2 & K2) & P2 & T2 & _).
  cbn in C1, A1, P1, T1, Y1.
  leave_stream Hf. rewrite Hkb, Htb, T2, T1.
  eexists. exists ws. split; [reflexivity |]. cbn.
  rewrite app_nil_r, P2, P1, A2, A1, Y2, Y1.
  repeat split; [exact S2 |].
  destruct mode; by rewrite <- ?app_assoc, ?app_nil_r.
Qed.

(** C1 (amended). Take an interaction of one round, without tool use and
    without thinking, whose stream is the body of an answer (block starts
    and text deltas) followed by closing events (block stops), and whose
    final message is one text block holding the concatenation of the
    streamed text. Then both runs come to their end, and the collected
    output is the concatenation, in order, of the [content] of the live
    deltas, trimmed of surrounding white space. *)
Theorem collected_is_trimmed_live_content
    {W} (collab : collaborators W) (self : agent) (logs : bool)
    (messages : list message) (fuel : nat) (w w0 w1 : W)
    (listed : list tool_definition) (session : provider_round)
    (body closing : list event) (block : content_block) :
  simulate self = false ->
  list_tools collab w = (Returned listed, w0) ->
  messages_stream collab w0
    (request_kwargs self (List.map to_anthropic listed) messages) = (session, w1) ->
  events session = body ++ closing ->
  forallb answer_event body = true ->
  forallb closing_event closing = true ->
  final_message session = Some [block] ->
  cb_type block <> Some BThinking ->
  cb_text block = Some (streamed_text body) ->
  exists live collected,
    ask_stream collab self true logs messages (S fuel) (initial w)
      = (Returned true, live)
    /\ ask_stream collab self false logs messages (S fuel) (initial w)
       = (Returned true, collected)
    /\ yielded collected = [PStr (strip (live_content (yielded live)))].
Proof.
  intros Hsim Hl Hs Hev Hb Hc Hf Hty Htx.
  assert (forall mode, exists s' ws,
            ask_stream collab self mode logs messages (S fuel) (initial w)
              = (Returned true, s')
            /\ forallb is_space ws = true
            /\ (mode = true ->
                live_content (yielded s') = streamed_text body ++ ws)
            /\ (mode = false ->
                yielded s' = [PStr (strip (streamed_text body))])) as Hrun.
  { intros mode. unfold ask_stream. rewrite Hsim.
    unfold bind at 1, await, bind at 1, external. cbn [world initial].
    rewrite Hl. unfold ret at 1.
    unfold bind at 1, start_conversation at 1, modify.
    unfold bind at 1. rewrite while_true_step.
    match goal with |- context [round _ _ _ _ ?tools ?s0] =>
      destruct (plain_round collab self mode logs tools s0 session w1 body closing
                  block Hs Hev Hb Hc Hf Hty Htx)
        as (s1 & ws & H1 & P1 & A1 & S1 & Y1);
      pose proof (round_silent collab self logs tools s0) as Hsil
    end.
    rewrite H1. cbn in P1, A1, Y1.
    unfold bind at 1, get at 1. unfold bind at 1, get at 1.
    rewrite P1, A1.
    destruct mode; run_m; cbn [fst snd].
    - eexists. exists ws. split; [reflexivity |]. split; [exact S1 |].
      cbn [yielded]. split; [intros _ | done].
      rewrite live_content_app, Y1. cbn. by rewrite app_nil_r.
    - eexists. exists ws. split; [reflexivity |]. split; [exact S1 |].
      cbn [yielded]. split; [done | intros _].
      rewrite H1 in Hsil. cbn in Hsil. rewrite Hsil. cbn [app].
      unfold final_answer, final_sections. cbn [app].
      destruct (streamed_text body); reflexivity. }
  destruct (Hrun true) as (live & ws & Hlive & Hws & Hcontent & _).
  destruct (Hrun false) as (collected & _ & Hcoll & _ & _ & Hout).
  exists live, collected. split; [exact Hlive |]. split; [exact Hcoll |].
  rewrite Hout, Hcontent by done. by rewrite strip_trailing_spaces.
Qed.

(** The example of the specification: the question [2+2?] answered by one
    text block ["4"], streamed as start, delta, stop. *)
Lemma collected_is_trimmed_live_content_witness :
  exists live collected,
    ask_stream (Scenario.scripted Scenario.echo_tool) Scenario.test_agent true true
      Scenario.question 1 (initial [Scenario.four_session]) = (Returned true, live)
    /\ ask_stream (Scenario.scripted Scenario.echo_tool) Scenario.test_agent false true
         Scenario.question 1 (initial [Scenario.four_session])
       = (Returned true, collected)
    /\ yielded collected = [PStr (strip (live_content (yielded live)))].
Proof.
  apply (collected_is_trimmed_live_content (Scenario.scripted Scenario.echo_tool)
           Scenario.test_agent true Scenario.question 0
           [Scenario.four_session] [Scenario.four_session] []
           [Scenario.echo_definition] Scenario.four_session
           [Scenario.start_event 0 BText; Scenario.text_event 0 (py "4")]
           [Scenario.stop_event 0 (Some (Scenario.block BText (Some (py "4"))))]
           (Scenario.block BText (Some (py "4")))).
  - reflexivity.
  - reflexivity.
  - reflexivity.
  - reflexivity.
  - reflexivity.
  - reflexivity.
  - reflexivity.
  - discriminate.
  - reflexivity.
Defined.

(** C1, as stated, fails on that very interaction: no tool is requested,
    the collected output is ["4"], and the [content] of the live deltas
    adds up to ["4"] followed by the line feed of the closed block. *)
Lemma collected_differs_from_live_content :
  finalized_tool_uses (events Scenario.four_session) = []
  /\ yielded
       (snd (ask_stream (Scenario.scripted Scenario.echo_tool) Scenario.test_agent
               false true Scenario.question 1 (initial [Scenario.four_session])))
     = [PStr (py "4")]
  /\ live_content
       (yielded
          (snd (ask_stream (Scenario.scripted Scenario.echo_tool) Scenario.test_agent
                  true true Scenario.question 1 (initial [Scenario.four_session]))))
     = py "4" ++ nl
  /\ py "4" ++ nl <> py "4".
Proof.
  split; [reflexivity |]. split; [vm_compute; reflexivity |].
  split; [vm_compute; reflexivity | discriminate].
Qed.

End AgentFacts.
